(** * The boot sequencer of the Form.IO server (index.js)

    A shallow embedding of [index.js]: the module function, the two
    logging closures [router.formio.log] and [router.formio.audit], and
    [router.init] with its four local functions.

    The file talks to a lot of code that is not its own: the hook system,
    the required modules, Express, mongoose, the evaluator.  A call into
    such code is an event of a small free monad; an oracle answers the
    calls that return something, and a run yields the outcome together
    with the trace of everything the file did.

    Conventions of the model:
    - a call whose result is used, or which is awaited, may return or
      throw as the oracle decides; a rejected promise is a throw, and
      [await] is sequencing;
    - [router.use], [router.get], [registerEvaluator], [next], the loggers
      and the assignments to [util.Formio] are done for their effect and
      do not throw;
    - the members of [router.formio.middleware], [router.formio.auth] and
      [router.formio.update] that are handed to the router are named, not
      inspected; reading one off [undefined] or [null] throws;
    - [config] and the fields of [router.formio] change only where
      index.js assigns them;
    - a required module that index.js calls with [router] or with
      [router.formio] ([require(path)(router)]) is one call; what such a
      module puts on the router itself is its own doing and no event of
      the trace, which holds the [router.use] and [router.get] of index.js
      only. *)

From Stdlib Require Import QArith Lqa.
From stdpp Require Import base option list strings pretty sorting gmap.

Set Warnings "-register-all,-clear-no-such-hyp".

Local Open Scope string_scope.
Local Open Scope list_scope.

(** ** JavaScript values *)

(** A JavaScript number.  Finite numbers are rationals: the only
    arithmetic of the file is [config.maxOldSpace * 0.8 < heapTotal / 1024
    / 1024], which the code computes in doubles.  The two agree on whole
    numbers of megabytes up to 2^30 and of bytes below 2^53: the quotient
    is exact, and the rounded product is too near [maxOldSpace * 4 / 5] to
    pass a multiple of 1/1048576.  What is stated below on the outcome of
    the comparison is stated for such numbers only.  Signed zeros are not
    told apart. *)
Inductive number : Type :=
| Fin (q : Q)
| NaN
| PosInf
| NegInf.

(** [VArray] is an array (or any iterable, by what it yields), [VObject] a
    plain object by its own properties in insertion order, [VRef] a host
    object or function the file only passes around, such as [req] or
    [router.formio] itself; a [VRef] cannot be iterated. *)
Inductive value : Type :=
| VUndefined
| VNull
| VBool (b : bool)
| VNum (n : number)
| VStr (s : string)
| VArray (xs : list value)
| VObject (props : list (string * value))
| VRef (name : string).

Module Num.

Definition of_Z (z : Z) : number := Fin (inject_Z z).

Definition is_zero (q : Q) : bool := (Qnum q =? 0)%Z.

Definition sgn (x : number) : Z :=
  match x with
  | Fin q => Z.sgn (Qnum q)
  | NaN => 0
  | PosInf => 1
  | NegInf => -1
  end.

Definition of_sign (s : Z) : number :=
  match s with
  | Z0 => NaN
  | Zpos _ => PosInf
  | Zneg _ => NegInf
  end.

Definition mul (x y : number) : number :=
  match x, y with
  | NaN, _ | _, NaN => NaN
  | Fin a, Fin b => Fin (a * b)
  | _, _ => of_sign (sgn x * sgn y)
  end.

Definition div (x y : number) : number :=
  match x, y with
  | NaN, _ | _, NaN => NaN
  | Fin a, Fin b => if is_zero b then of_sign (sgn x) else Fin (a / b)
  | Fin _, _ => Fin 0
  | _, Fin b => if is_zero b then x else of_sign (sgn x * sgn y)
  | _, _ => NaN
  end.

Definition ltb (x y : number) : bool :=
  match x, y with
  | NaN, _ | _, NaN => false
  | Fin a, Fin b => if Qlt_le_dec a b then true else false
  | NegInf, NegInf => false
  | NegInf, _ => true
  | _, PosInf => match x with PosInf => false | _ => true end
  | _, _ => false
  end.

(** ToBoolean on numbers: [0] and [NaN] are falsy. *)
Definition truthy (x : number) : bool :=
  match x with
  | Fin q => negb (is_zero q)
  | NaN => false
  | PosInf | NegInf => true
  end.

Definition is_integer (x : number) : bool :=
  match x with
  | Fin q => (Qnum q mod Zpos (Qden q) =? 0)%Z
  | _ => false
  end.

Definition is_positive (x : number) : bool :=
  match x with
  | Fin q => (0 <? Qnum q)%Z
  | PosInf => true
  | _ => false
  end.

End Num.

(** ToBoolean. *)
Definition truthy (v : value) : bool :=
  match v with
  | VUndefined | VNull => false
  | VBool b => b
  | VNum n => Num.truthy n
  | VStr s => negb (String.eqb s "")
  | VArray _ | VObject _ | VRef _ => true
  end.

(** [a || b] *)
Definition js_or (a b : value) : value := if truthy a then a else b.

(** [v === s] for a string literal [s]. *)
Definition strict_eq_str (v : value) (s : string) : bool :=
  match v with
  | VStr s' => String.eqb s' s
  | _ => false
  end.

(** Completion of a JavaScript computation: a value or a thrown one. A
    rejected promise that is awaited is a throw. *)
Inductive outcome (A : Type) : Type :=
| Normal (a : A)
| Throws (e : value).
Arguments Normal {A} a.
Arguments Throws {A} e.

Definition is_normal {A} (r : outcome A) : bool :=
  match r with Normal _ => true | Throws _ => false end.

Definition TypeError (msg : string) : value :=
  VObject [("name", VStr "TypeError"); ("message", VStr msg)].

(** ** Built-ins of the host *)

(** Algorithms of the language runtime and of lodash that the file uses
    and that are no part of the repository. *)
Class Host : Type := {
  (** ToNumber on a string *)
  string_to_number : string -> number;
  (** ToNumber on an object, array or function *)
  object_to_number : value -> number;
  (** [JSON.parse] *)
  json_parse : value -> outcome value;
  (** [Array.prototype.join] *)
  array_join : list value -> string -> string;
  (** the strings a string yields when iterated *)
  string_iter : string -> list string;
  (** the decimal index keys "0", "1", ... of an array *)
  index_key : nat -> string
}.

Section Values.
Context `{!Host}.

Definition to_number (v : value) : number :=
  match v with
  | VUndefined => NaN
  | VNull => Num.of_Z 0
  | VBool b => if b then Num.of_Z 1 else Num.of_Z 0
  | VNum n => n
  | VStr s => string_to_number s
  | _ => object_to_number v
  end.

Fixpoint assoc_get (k : string) (ps : list (string * value)) : option value :=
  match ps with
  | [] => None
  | (k', v) :: ps' => if String.eqb k' k then Some v else assoc_get k ps'
  end.

(** Assignment keeps the position of an own key and appends a new one. *)
Fixpoint assoc_set (k : string) (v : value) (ps : list (string * value))
  : list (string * value) :=
  match ps with
  | [] => [(k, v)]
  | (k', v') :: ps' =>
      if String.eqb k' k then (k', v) :: ps' else (k', v') :: assoc_set k v ps'
  end.

Definition array_props (xs : list value) : list (string * value) :=
  imap (fun i x => (index_key i, x)) xs.

(** [o.k] where [k] is no index, [length] or inherited name. *)
Definition get_prop (o : value) (k : string) : outcome value :=
  match o with
  | VUndefined | VNull =>
      Throws (TypeError ("Cannot read properties of undefined or null: " ++ k))
  | VObject ps => Normal (default VUndefined (assoc_get k ps))
  | _ => Normal VUndefined
  end.

(** [o.hasOwnProperty(k)], same keys. *)
Definition has_own (o : value) (k : string) : outcome bool :=
  match o with
  | VUndefined | VNull =>
      Throws (TypeError "Cannot read properties of undefined or null: hasOwnProperty")
  | VObject ps => Normal (bool_decide (is_Some (assoc_get k ps)))
  | _ => Normal false
  end.

(** [o.k = v] in strict mode.  An array that receives a named property
    is continued as the object of its index keys; a host object is
    mutated out of sight. *)
Definition set_prop (o : value) (k : string) (v : value) : outcome value :=
  match o with
  | VUndefined | VNull =>
      Throws (TypeError ("Cannot set properties of undefined or null: " ++ k))
  | VBool _ | VNum _ | VStr _ =>
      Throws (TypeError ("Cannot create property on a primitive: " ++ k))
  | VObject ps => Normal (VObject (assoc_set k v ps))
  | VArray xs => Normal (VObject (assoc_set k v (array_props xs)))
  | VRef r => Normal (VRef r)
  end.

(** The own enumerable properties copied by [{...o}]. *)
Definition own_props (o : value) : list (string * value) :=
  match o with
  | VObject ps => ps
  | VArray xs => array_props xs
  | VStr s => array_props (VStr <$> string_iter s)
  | _ => []
  end.

(** [{...a, ...b}] *)
Definition object_spread (a b : value) : value :=
  VObject (foldl (fun acc kv => assoc_set kv.1 kv.2 acc) (own_props a) (own_props b)).

(** [f(...v)]: the arguments an iterable spreads into. *)
Definition spread (v : value) : outcome (list value) :=
  match v with
  | VArray xs => Normal xs
  | VStr s => Normal (VStr <$> string_iter s)
  | _ => Throws (TypeError "Spread syntax requires ...iterable[Symbol.iterator] to be a function")
  end.

End Values.

(** ** Events *)

(** What [router.use] and [router.get] are given.  The functions of the
    required modules are named by where the file reads them from. *)
Inductive handler : Type :=
| MemoryLeakPrevention
| Middleware (name : string)
| Auth (name : string)
| UpdateSanityCheck
| BodyParserUrlencoded
| BodyParserJson
| MalformedJson
| CorsWrapper (corsOptions : value)
| Altered (v : value)
| FormComponents
| Swagger (path : string).

Record request : Type := Request { url : value }.
Record response : Type := Response { headersSent : value }.

(** Calls whose result the file uses, or whose failure it meets. *)
Inductive call : Type :=
| Require (path : string)
| HookInvoke (name : string) (args : list value)
| HookAlter (name : string) (args : list value)
| UpdateInitialize
| NewIsolateVMEvaluator (options hook : value)
| MemoryUsage
| Gc
| MongooseConnect (mongoUrl mongoConfig : value).

(** Calls made for their effect only. *)
Inductive action : Type :=
| NunjucksConfigure
| RouterUse (path : option string) (h : handler)
| RouterGet (path : string) (h : handler)
| RegisterEvaluator (evaluator : value)
| DebugLog (args : list value)
| ConsoleLog (args : list value)
| UtilLog (args : list value)
| SetUtilFormio (field : string) (v : value)
| Next
| CorsRoute (corsOptions : value) (req : request) (res : response)
| ObjectIdSetTransform.

Inductive entry : Type :=
| Did (a : action)
| Asked (c : call) (r : outcome value).

Definition trace : Type := list entry.

(** ** Programs *)

Inductive prog (A : Type) : Type :=
| Ret (a : A)
| Do (a : action) (k : prog A)
| Ask (c : call) (k : outcome value -> prog A).
Arguments Ret {A} a.
Arguments Do {A} a k.
Arguments Ask {A} c k.

(** A JavaScript computation: it ends with a value or a throw. *)
Definition js (A : Type) : Type := prog (outcome A).

Fixpoint js_bind {A B} (f : A -> js B) (p : js A) : js B :=
  match p with
  | Ret (Normal a) => f a
  | Ret (Throws e) => Ret (Throws e)
  | Do a k => Do a (js_bind f k)
  | Ask c k => Ask c (fun r => js_bind f (k r))
  end.

(** [try { p } catch (e) { h e }] *)
Fixpoint try_catch {A} (p : js A) (h : value -> js A) : js A :=
  match p with
  | Ret (Normal a) => Ret (Normal a)
  | Ret (Throws e) => h e
  | Do a k => Do a (try_catch k h)
  | Ask c k => Ask c (fun r => try_catch (k r) h)
  end.

#[export] Instance js_mret : MRet js := fun A a => Ret (Normal a).
#[export] Instance js_mbind : MBind js := fun A B f p => js_bind f p.

Definition throw {A} (e : value) : js A := Ret (Throws e).
Definition lift {A} (r : outcome A) : js A := Ret r.
Definition act (a : action) : js unit := Do a (Ret (Normal tt)).
Definition ask (c : call) : js value := Ask c Ret.

(** The environment: what a call answers, given all that happened so far. *)
Definition oracle : Type := trace -> call -> outcome value.

Fixpoint run {A} (o : oracle) (h : trace) (p : prog A) : A * trace :=
  match p with
  | Ret a => (a, [])
  | Do a k => let '(r, t) := run o (h ++ [Did a]) k in (r, Did a :: t)
  | Ask c k =>
      let ans := o h c in
      let '(r, t) := run o (h ++ [Asked c ans]) (k ans) in (r, Asked c ans :: t)
  end.

Definition result_of {A} (o : oracle) (h : trace) (p : prog A) : A := (run o h p).1.
Definition trace_of {A} (o : oracle) (h : trace) (p : prog A) : trace := (run o h p).2.

(** ** index.js *)

(** [router.formio] and [config] are objects used as maps from field
    names; a field that was never set reads [undefined]. *)
Definition field (o : gmap string value) (k : string) : value :=
  default VUndefined (o !! k).

(** [router.formio] as an argument. *)
Definition formio_ref : value := VRef "router.formio".

(** Reading a member of [undefined] or [null] throws. *)
Definition member (o : value) (k : string) : js unit :=
  match o with
  | VUndefined | VNull =>
      throw (TypeError ("Cannot read properties of undefined or null: " ++ k))
  | _ => mret tt
  end.

Section Server.
Context `{!Host}.
Variable config : gmap string value.

(** [router.formio.hook.invoke(name, ...args)] *)
Definition hook_invoke (F : gmap string value) (name : string) (args : list value)
  : js value :=
  member (field F "hook") "invoke";; ask (HookInvoke name args).

(** [router.formio.hook.alter(name, ...args)] *)
Definition hook_alter (F : gmap string value) (name : string) (args : list value)
  : js value :=
  member (field F "hook") "alter";; ask (HookAlter name args).

(** [module.exports = function(config) {...}], up to the closures; gives
    the config with its schema and [router.formio]. *)
Definition exports : js (gmap string value * gmap string value) :=
  let F := <["mongoose" := VRef "mongoose"]> (∅ : gmap string value) in
  let F := <["config" := VRef "config"]> F in
  middleware ← ask (Require "./src/middleware/middleware");
  let F := <["middleware" := middleware]> F in
  act NunjucksConfigure;;
  let F := <["events" := VRef "EventEmitter"]> F in
  package ← ask (Require "./package.json");
  schema ← lift (get_prop package "schema");
  mret (<["schema" := schema]> config, F).

(** [router.formio.log] *)
Definition log (F : gmap string value) (event req : value) (info : list value)
  : js unit :=
  result ← hook_alter F "log" (event :: req :: info);
  if truthy result then act (DebugLog (event :: info)) else mret tt.

(** [router.formio.audit] *)
Definition audit (F : gmap string value) (event req : value) (info : list value)
  : js unit :=
  if truthy (field config "audit") then
    result ← hook_alter F "audit" [VArray info; event; req];
    if truthy result then
      args ← lift (spread result);
      act (ConsoleLog args)
    else mret tt
  else mret tt.

(** The middleware installed by [setupMemoryLeakPrevention]. *)
Definition memoryLeakPrevention : js unit :=
  act (SetUtilFormio "forms" (VObject []));;
  act (SetUtilFormio "cache" (VObject []));;
  try_catch
    (if truthy (field config "maxOldSpace") then
       usage ← ask MemoryUsage;
       heapTotal ← lift (get_prop usage "heapTotal");
       let heap :=
         Num.div (Num.div (to_number heapTotal) (Num.of_Z 1024)) (Num.of_Z 1024) in
       if Num.ltb (Num.mul (to_number (field config "maxOldSpace")) (Fin (8 # 10))) heap
       then ask Gc;; mret tt
       else mret tt
     else mret tt)
    (fun error => act (ConsoleLog [error]));;
  act Next.

Definition setupMemoryLeakPrevention : js unit :=
  act (RouterUse None MemoryLeakPrevention).

(** The middleware around [corsRoute = cors(corsOptions)]. *)
Definition corsWrapper (corsOptions : value) (req : request) (res : response)
  : js unit :=
  if strict_eq_str (url req) "/" then act Next
  else if truthy (headersSent res) then act Next
  else act (CorsRoute corsOptions req res).

(** The handlers that index.js defines itself. *)
Definition run_handler (h : handler) (req : request) (res : response)
  : option (js unit) :=
  match h with
  | MemoryLeakPrevention => Some memoryLeakPrevention
  | CorsWrapper corsOptions => Some (corsWrapper corsOptions req res)
  | _ => None
  end.

(** [if (!router.formio.hook.invoke('init', step, router.formio)) install] *)
Definition init_step (F : gmap string value) (step : string) (install : js unit)
  : js unit :=
  overridden ← hook_invoke F "init" [VStr step; formio_ref];
  if truthy overridden then mret tt else install.

Definition use_middleware (F : gmap string value) (path : option string)
    (name : string) : js unit :=
  member (field F "middleware") name;;
  act (RouterUse path (Middleware name)).

Definition get_auth (F : gmap string value) (path name : string) : js unit :=
  member (field F "auth") name;;
  act (RouterGet path (Auth name)).

Definition setupMiddlewares (F : gmap string value) : js (gmap string value) :=
  init_step F "alias" (use_middleware F None "alias");;
  init_step F "params" (use_middleware F None "params");;
  member (field F "update") "sanityCheck";;
  act (RouterUse None UpdateSanityCheck);;
  act (RouterUse None BodyParserUrlencoded);;
  act (RouterUse None BodyParserJson);;
  act (RouterUse None MalformedJson);;
  corsOptions ← hook_alter F "cors" [];
  act (RouterUse None (CorsWrapper corsOptions));;
  auth ← ask (Require "./src/authentication/index");
  let F := <["auth" := auth]> F in
  init_step F "token" (use_middleware F None "tokenHandler");;
  init_step F "getTempToken" (get_auth F "/token" "tempToken");;
  init_step F "logout" (get_auth F "/logout" "logout");;
  init_step F "current"
    (member (field F "hook") "alter";;
     member (field F "auth") "currentUser";;
     currentUser ← ask (HookAlter "currentUser"
                          [VArray [VRef "router.formio.auth.currentUser"]]);
     act (RouterGet "/current" (Altered currentUser)));;
  init_step F "access"
    (member (field F "middleware") "accessHandler";;
     act (RouterGet "/access" (Middleware "accessHandler")));;
  init_step F "config" (use_middleware F (Some "/config.json") "configHandler");;
  init_step F "perms" (use_middleware F None "permissionHandler");;
  mret F.

Definition configureEvaluator (F : gmap string value) : js unit :=
  evaluator ← ask (NewIsolateVMEvaluator
                     (VObject [("timeoutMs", field config "vmTimeout")])
                     (field F "hook"));
  act (RegisterEvaluator evaluator).

(** [if (!o.hasOwnProperty(k)) o.k = v] *)
Definition ensure_default (o : value) (k : string) (v : value) : js value :=
  own ← lift (has_own o k);
  if (own : bool) then mret o else lift (set_prop o k v).

Definition connectToMongoDB (F : gmap string value) (mongoUrl mongoConfig : value)
  : js (gmap string value) :=
  try_catch
    (ask (MongooseConnect mongoUrl mongoConfig);;
     act (UtilLog [VStr " > Mongo connection established."]);;
     baseModel ← ask (Require "./src/models/BaseModel");
     let F := <["BaseModel" := baseModel]> F in
     plugins ← ask (Require "./src/plugins/plugins");
     let F := <["plugins" := plugins]> F in
     permission ← ask (Require "./src/models/PermissionSchema");
     access ← ask (Require "./src/models/AccessSchema");
     fieldMatch ← ask (Require "./src/models/FieldMatchAccessPermissionSchema");
     let schemas := VObject [("PermissionSchema", permission);
                             ("AccessSchema", access);
                             ("FieldMatchAccessPermissionSchema", fieldMatch)] in
     let F := <["schemas" := schemas]> F in
     models ← ask (Require "./src/models/models");
     modelSchemas ← lift (get_prop models "schemas");
     let F := <["schemas" := object_spread schemas modelSchemas]> F in
     modelModels ← lift (get_prop models "models");
     let F := <["models" := modelModels]> F in
     resources ← ask (Require "./src/resources/resources");
     let F := <["resources" := resources]> F in
     cache ← ask (Require "./src/cache/cache");
     let F := <["cache" := cache]> F in
     act (RouterGet "/form/:formId/components" FormComponents);;
     action ← lift (get_prop modelModels "action");
     let F := <["Action" := action]> F in
     actions ← ask (Require "./src/actions/actions");
     let F := <["actions" := actions]> F in
     ask (Require "./src/export/export");;
     default ← ask (Require "./src/templates/default.json");
     let F := <["templates" := VObject [("default", default)]]> F in
     template ← ask (Require "./src/templates/index");
     let F := <["template" := template]> F in
     ask (Require "./src/util/swagger");;
     act (RouterGet "/spec.json" (Swagger "/spec.json"));;
     act (RouterGet "/form/:formId/spec.json" (Swagger "/form/:formId/spec.json"));;
     ask (Require "./src/middleware/recaptcha");;
     mret (<["db" := VRef "mongoose.connection"]> F))
    (fun err =>
       message ← lift (get_prop err "message");
       act (UtilLog [message]);;
       throw message).

Definition setupMongoDBConnection (F : gmap string value) : js (gmap string value) :=
  let mongoUrl := field config "mongo" in
  mongoConfig ← (if truthy (field config "mongoConfig")
                 then lift (json_parse (field config "mongoConfig"))
                 else mret (VObject []));
  mongoConfig ← ensure_default mongoConfig "connectTimeoutMS" (VNum (Num.of_Z 300000));
  mongoConfig ← ensure_default mongoConfig "socketTimeoutMS" (VNum (Num.of_Z 300000));
  let mongoUrl :=
    match field config "mongo" with
    | VArray xs => VStr (array_join xs ",")
    | _ => mongoUrl
    end in
  mongoConfig ←
    (if truthy (js_or (field config "mongoSA") (field config "mongoCA")) then
       mongoConfig ← lift (set_prop mongoConfig "tls" (VBool true));
       lift (set_prop mongoConfig "tlsCAFile"
               (js_or (field config "mongoSA") (field config "mongoCA")))
     else mret mongoConfig);
  let mongoConfig :=
    if truthy (field config "mongoSSL")
    then object_spread mongoConfig (field config "mongoSSL")
    else mongoConfig in
  act ObjectIdSetTransform;;
  connectToMongoDB F mongoUrl mongoConfig.

(** [router.init] *)
Definition init (F : gmap string value) (hooks : value) : js (gmap string value) :=
  let F := <["hooks" := hooks]> F in
  let F := <["util" := VRef "util"]> F in
  hook ← ask (Require "./src/util/hook");
  let F := <["hook" := hook]> F in
  hook_alter F "configFormio" [VObject [("Formio", VRef "util.Formio")]];;
  encrypt ← ask (Require "./src/util/encrypt");
  let F := <["encrypt" := encrypt]> F in
  update ← ask (Require "./src/db/index");
  let F := <["update" := update]> F in
  member update "initialize";;
  db ← ask UpdateInitialize;
  act (UtilLog [VStr "Initializing API Server."]);;
  let F := <["db" := db]> F in
  setupMemoryLeakPrevention;;
  F ← setupMiddlewares F;
  configureEvaluator F;;
  F ← setupMongoDBConnection F;
  mret F.

End Server.

(** ** The hook registry and the evaluator *)

Module HookRegistry.

(** Modelled from the spec: [src/util/hook.js], the Hook Registry, is
    required by index.js but is not among the sources.  Sections 3 and
    4.1: a mapping from extension-point name to the handlers in
    registration order; [register] appends; [invoke] runs the handlers
    in order and tells whether there was one; [alter] passes the value
    through the handlers in order, a handler that declines to transform
    passes it through; a handler that fails fails the whole call. *)
Definition handler : Type := list value -> outcome (option value).

(** Modelled from the spec: the handlers registered for a point of the
    missing [src/util/hook.js], none when the point was never named. *)
Definition handlers (R : gmap string (list handler)) (point : string) : list handler :=
  default [] (R !! point).

(** Modelled from the spec: [register] of the missing [src/util/hook.js]
    appends; duplicates are allowed. *)
Definition register (point : string) (h : handler) (R : gmap string (list handler))
  : gmap string (list handler) :=
  <[point := handlers R point ++ [h]]> R.

Fixpoint invoke_all (hs : list handler) (args : list value) : outcome bool :=
  match hs with
  | [] => Normal true
  | h :: hs' =>
      match h args with
      | Normal _ => invoke_all hs' args
      | Throws e => Throws e
      end
  end.

(** Modelled from the spec: [invoke] of the missing [src/util/hook.js]
    is [false] without a handler and [true] once the handlers ran. *)
Definition invoke (R : gmap string (list handler)) (point : string) (args : list value)
  : outcome bool :=
  match handlers R point with
  | [] => Normal false
  | hs => invoke_all hs args
  end.

Fixpoint alter_with (hs : list handler) (v : value) (args : list value)
  : outcome value :=
  match hs with
  | [] => Normal v
  | h :: hs' =>
      match h (v :: args) with
      | Normal (Some v') => alter_with hs' v' args
      | Normal None => alter_with hs' v args
      | Throws e => Throws e
      end
  end.

(** Modelled from the spec: [alter] of the missing [src/util/hook.js]
    composes the handlers of the point in registration order. *)
Definition alter (R : gmap string (list handler)) (point : string) (v : value)
    (args : list value) : outcome value :=
  alter_with (handlers R point) v args.

(** The registry as the environment of index.js: it answers the two
    hook calls, a missing argument being [undefined], and leaves the
    other calls to [rest]. *)
Definition serve (R : gmap string (list handler)) (rest : oracle) : oracle :=
  fun h c =>
    match c with
    | HookInvoke point args =>
        match invoke R point args with
        | Normal b => Normal (VBool b)
        | Throws e => Throws e
        end
    | HookAlter point args => alter R point (hd VUndefined args) (tl args)
    | _ => rest h c
    end.

End HookRegistry.

Module IsolateVM.

Definition ConfigurationError : value :=
  VObject [("name", VStr "ConfigurationError");
           ("message", VStr "timeoutMs must be a positive integer")].

(** Modelled from the spec: the check of [timeoutMs] in the missing
    [src/vm]; section 6 asks for integer milliseconds and a positive
    number. *)
Definition valid_timeout (v : value) : bool :=
  match v with
  | VNum n => Num.is_integer n && Num.is_positive n
  | _ => false
  end.

(** Modelled from the spec: the constructor of [IsolateVMEvaluator]
    ([src/vm]), which index.js calls but which is not among the sources.
    Sections 4.2, 6 and 7: its options carry [timeoutMs]; with an absent
    or invalid one the configuration fails with a ConfigurationError
    instead of defaulting; the instance holds the budget and the
    reference to the Hook Registry. *)
Definition construct (options hook : value) : outcome value :=
  match get_prop options "timeoutMs" with
  | Normal timeoutMs =>
      if valid_timeout timeoutMs
      then Normal (VObject [("timeoutMs", timeoutMs); ("hook", hook)])
      else Throws ConfigurationError
  | Throws e => Throws e
  end.

(** An environment whose evaluator is the one of the spec. *)
Definition provides (o : oracle) : Prop :=
  forall h options hook,
    o h (NewIsolateVMEvaluator options hook) = construct options hook.

End IsolateVM.

(** An environment to run examples on: no hook is registered, the
    evaluator is the one of the spec, the models module exports its two
    tables, the heap is 64 MB, and every other call returns an empty
    object. *)
Definition example_base : oracle :=
  fun _ c =>
    match c with
    | NewIsolateVMEvaluator options hook => IsolateVM.construct options hook
    | Require "./src/models/models" =>
        Normal (VObject [("schemas", VObject []); ("models", VObject [])])
    | MemoryUsage => Normal (VObject [("heapTotal", VNum (Num.of_Z 67108864))])
    | _ => Normal (VObject [])
    end.

Definition example_env : oracle := HookRegistry.serve ∅ example_base.

(** A registry whose one handler of 'cors' declines to transform. *)
Definition declining_registry : gmap string (list HookRegistry.handler) :=
  HookRegistry.register "cors" (fun _ => Normal None) ∅.

Definition declining_env : oracle := HookRegistry.serve declining_registry example_base.

(** An environment in which every call into foreign code throws. *)
Definition failing_env : oracle := fun _ _ => Throws (VStr "failure").

(** An environment whose hooks answer [true] to everything. *)
Definition overriding_env : oracle := fun _ _ => Normal (VBool true).

Definition example_formio : gmap string value :=
  <["hook" := VRef "hook"]>
    (<["middleware" := VRef "middleware"]> (<["update" := VRef "update"]> ∅)).

Definition example_config : gmap string value :=
  <["vmTimeout" := VNum (Num.of_Z 500)]>
    (<["audit" := VBool true]> (<["maxOldSpace" := VNum (Num.of_Z 2048)]> ∅)).

(** The one-character strings of a string. *)
Fixpoint chars (s : string) : list string :=
  match s with
  | EmptyString => []
  | String a s' => String a EmptyString :: chars s'
  end.

(** A host to run examples on.  Only [string_iter] and [index_key] are
    those of the language; the other built-ins answer one fixed value. *)
Definition example_host : Host := {|
  string_to_number := fun _ => NaN;
  object_to_number := fun _ => NaN;
  json_parse := fun _ => Normal (VObject []);
  array_join := fun _ _ => "";
  string_iter := chars;
  index_key := fun i => pretty i
|}.

(** ** Properties of runs *)

Fixpoint count (P : entry -> bool) (t : trace) : nat :=
  match t with
  | [] => 0
  | e :: t' => (if P e then 1 else 0) + count P t'
  end.

(** No event of the kind [P], whatever the environment does. *)
Definition quiet {A} (P : entry -> bool) (p : js A) : Prop :=
  forall o h, count P (trace_of o h p) = 0.

(** At most one event of the kind [P], and exactly one when the program
    returns. *)
Definition single {A} (P : entry -> bool) (p : js A) : Prop :=
  forall o h,
    count P (trace_of o h p) <= 1 /\
    (is_normal (result_of o h p) -> count P (trace_of o h p) = 1).

(** Never more events of the kind [P] than of the kind [Q], and as many
    when the program returns. *)
Definition matched {A} (P Q : entry -> bool) (p : js A) : Prop :=
  forall o h,
    count P (trace_of o h p) <= count Q (trace_of o h p) /\
    (is_normal (result_of o h p) ->
     count P (trace_of o h p) = count Q (trace_of o h p)).

(** Every event satisfies [P]. *)
Definition every {A} (P : entry -> Prop) (p : js A) : Prop :=
  forall o h, Forall P (trace_of o h p).

(** In the environments [O] the program throws, without an event of the
    kind [P]. *)
Definition aborts {A} (O : oracle -> Prop) (P : entry -> bool) (p : js A) : Prop :=
  forall o h, O o ->
    is_normal (result_of o h p) = false /\ count P (trace_of o h p) = 0.

(** Every event has an event of the same run that stands in [R] to it. *)
Definition supported {A} (R : entry -> entry -> Prop) (p : js A) : Prop :=
  forall o h e, In e (trace_of o h p) ->
    exists e', In e' (trace_of o h p) /\ R e' e.

(** What the program returns satisfies [R]. *)
Definition returns {A} (R : A -> Prop) (p : js A) : Prop :=
  forall o h a, result_of o h p = Normal a -> R a.

(** The options and the hook an evaluator is constructed with. *)
Definition constructed_with (config : gmap string value) (hook : value) (e : entry)
  : Prop :=
  match e with
  | Asked (NewIsolateVMEvaluator options hk) _ =>
      options = VObject [("timeoutMs", field config "vmTimeout")] /\ hk = hook
  | _ => True
  end.

(** A registered evaluator is the instance a construction returned. *)
Definition registers_constructed (e' e : entry) : Prop :=
  match e with
  | Did (RegisterEvaluator ev) =>
      exists options hk, e' = Asked (NewIsolateVMEvaluator options hk) (Normal ev)
  | _ => True
  end.

(** The options of an installed CORS wrapper are what [alter('cors')]
    returned. *)
Definition cors_from_alter (e' e : entry) : Prop :=
  match e with
  | Did (RouterUse _ (CorsWrapper corsOptions)) =>
      e' = Asked (HookAlter "cors" []) (Normal corsOptions)
  | _ => True
  end.



(** The routes that [connectToMongoDB] adds once the models are loaded. *)
Definition is_route (h : handler) : bool :=
  match h with
  | FormComponents | Swagger _ => true
  | _ => false
  end.





(** The steps the boot sequencer offers to the hooks. *)
Definition init_steps : list string :=
  ["alias"; "params"; "token"; "getTempToken"; "logout"; "current"; "access";
   "config"; "perms"].

(** [hook.invoke('init', step, router.formio)] returned a value of the
    given truthiness. *)
Definition invoke_returned (step : string) (b : bool) (e : entry) : bool :=
  match e with
  | Asked (HookInvoke name [VStr s; VRef r]) (Normal v) =>
      String.eqb name "init" && String.eqb s step && String.eqb r "router.formio"
      && Bool.eqb (truthy v) b
  | _ => false
  end.

(** The default of a step is installed. *)
Definition installs_default (step : string) (e : entry) : bool :=
  match e with
  | Did (RouterUse None (Middleware m)) =>
      String.eqb step "alias" && String.eqb m "alias"
      || String.eqb step "params" && String.eqb m "params"
      || String.eqb step "token" && String.eqb m "tokenHandler"
      || String.eqb step "perms" && String.eqb m "permissionHandler"
  | Did (RouterUse (Some path) (Middleware m)) =>
      String.eqb step "config" && String.eqb path "/config.json"
      && String.eqb m "configHandler"
  | Did (RouterGet path (Auth a)) =>
      String.eqb step "getTempToken" && String.eqb path "/token"
      && String.eqb a "tempToken"
      || String.eqb step "logout" && String.eqb path "/logout"
         && String.eqb a "logout"
  | Did (RouterGet path (Altered _)) =>
      String.eqb step "current" && String.eqb path "/current"
  | Did (RouterGet path (Middleware m)) =>
      String.eqb step "access" && String.eqb path "/access"
      && String.eqb m "accessHandler"
  | _ => false
  end.

Definition is_construction (e : entry) : bool :=
  match e with Asked (NewIsolateVMEvaluator _ _) _ => true | _ => false end.

Definition is_registration (e : entry) : bool :=
  match e with Did (RegisterEvaluator _) => true | _ => false end.





(** [hook.alter('cors', ...)], with whatever arguments. *)
Definition is_cors_alter (e : entry) : bool :=
  match e with Asked (HookAlter name _) _ => String.eqb name "cors" | _ => false end.

Definition is_cors_install (e : entry) : bool :=
  match e with
  | Did (RouterUse _ (CorsWrapper _)) | Did (RouterGet _ (CorsWrapper _)) => true
  | _ => false
  end.

(** A CORS wrapper goes on the router with [router.use] and no path. *)
Definition cors_without_path (e : entry) : Prop :=
  match e with
  | Did (RouterUse path (CorsWrapper _)) => path = None
  | Did (RouterGet _ (CorsWrapper _)) => False
  | _ => True
  end.



Definition is_leak_install (e : entry) : bool :=
  match e with Did (RouterUse None MemoryLeakPrevention) => true | _ => false end.

Definition is_next (e : entry) : bool :=
  match e with Did Next => true | _ => false end.

(** [hook.invoke('init', step, router.formio)] returned. *)
Definition invoke_answered (step : string) (e : entry) : bool :=
  invoke_returned step true e || invoke_returned step false e.

(** ** The handlers of the body-parser errors and of the components route *)

(** Functions of lodash, of [src/util/util] and of the language that the
    two handlers use and index.js does not define. *)
Class Library : Type := {
  (** [_.has(object, path)] *)
  lodash_has : value -> string -> bool;
  (** [_.property(path)(object)] *)
  lodash_property : string -> value -> value;
  (** the values of [util.flattenComponents(components)], in key order *)
  flattenComponents : value -> outcome (list value);
  (** [err instanceof SyntaxError] *)
  instanceof_SyntaxError : value -> bool;
  (** ToPrimitive on an object, array or function *)
  object_to_primitive : value -> value
}.

(** What a handler does with the response and the chain.  The methods of
    the response ([status], [send], [json]) are Express's and are taken
    not to throw. *)
Inductive reply : Type :=
| StatusSend (code : nat) (body : value)
| Json (body : value)
| NextRoute
| NextError (err : value).

Definition is_send (r : reply) : bool :=
  match r with StatusSend _ _ | Json _ => true | _ => false end.

(** [res.headersSent] after the replies: [send] and [json] send the
    headers, [next] does not. *)
Definition headers_sent (rs : list reply) : bool := existsb is_send rs.

Definition is_nullish (v : value) : bool :=
  match v with VUndefined | VNull => true | _ => false end.

Definition is_object (v : value) : bool :=
  match v with VArray _ | VObject _ | VRef _ => true | _ => false end.

(** [x === y] on numbers. *)
Definition num_eqb (x y : number) : bool :=
  match x, y with
  | Fin a, Fin b => Qeq_bool a b
  | PosInf, PosInf | NegInf, NegInf => true
  | _, _ => false
  end.

Section Routes.
Context `{!Host} `{!Library}.

(** [a == b] for two values that are not one and the same object, as a
    value of a stored component and a value of the query never are. *)
Definition loose_eq (a b : value) : bool :=
  if is_nullish a || is_nullish b then is_nullish a && is_nullish b
  else if is_object a && is_object b then false
  else
    let a := if is_object a then object_to_primitive a else a in
    let b := if is_object b then object_to_primitive b else b in
    match a, b with
    | VStr s, VStr s' => String.eqb s s'
    | _, _ =>
        if is_nullish a || is_nullish b then false
        else num_eqb (to_number a) (to_number b)
    end.

(** The error handler after the body parsers:
    [if (err instanceof SyntaxError) res.status(400).send(err.message); next()] *)
Definition malformedJson (err : value) : outcome (list reply) :=
  if instanceof_SyntaxError err then
    match get_prop err "message" with
    | Normal message => Normal [StatusSend 400 message; NextRoute]
    | Throws e => Throws e
    end
  else Normal [NextRoute].

(** The callback of [_.reduce(filter, ..., true)] for one component. *)
Definition filter_step (component : value) (prev : bool) (entry : string * value)
  : bool :=
  let '(prop, value) := entry in
  if negb (truthy value) then prev && lodash_has component prop
  else
    let actualValue := lodash_property prop component in
    prev && loose_eq actualValue value
    || strict_eq_str value "true"
       && (match actualValue with VBool true => true | _ => false end)
    || strict_eq_str value "false"
       && (match actualValue with VBool false => true | _ => false end).

(** The callback of [filter]; [None] is the [null] filter. *)
Definition component_matches (filter : option (list (string * value)))
    (component : value) : bool :=
  match filter with
  | None => true
  | Some entries => foldl (filter_step component) true entries
  end.

(** [Object.keys(req.query).length !== 0 ? _.omit(req.query, ['limit',
    'skip']) : null] *)
Definition query_filter (query : value) : outcome (option (list (string * value))) :=
  if is_nullish query then
    Throws (TypeError "Cannot convert undefined or null to object")
  else
    match own_props query with
    | [] => Normal None
    | props =>
        Normal (Some (List.filter
                        (fun kv => negb (String.eqb kv.1 "limit" || String.eqb kv.1 "skip"))
                        props))
    end.

(** The handler of [/form/:formId/components], given what [findOne]
    settled with and [req.query]. *)
Definition formComponents (found : outcome value) (query : value) : reply :=
  match found with
  | Throws err => NextError err
  | Normal form =>
      if negb (truthy form) then StatusSend 404 (VStr "Form not found")
      else
        match query_filter query with
        | Throws err => NextError err
        | Normal filter =>
            match get_prop form "components" with
            | Throws err => NextError err
            | Normal components =>
                match flattenComponents components with
                | Throws err => NextError err
                | Normal flat =>
                    Json (VArray (List.filter (component_matches filter) flat))
                end
            end
        end
  end.

End Routes.

(** ** Further properties of runs *)

Definition is_gc (e : entry) : bool :=
  match e with Asked Gc _ => true | _ => false end.

Definition is_heap_read (e : entry) : bool :=
  match e with Asked MemoryUsage _ => true | _ => false end.

(** Something is put on the router. *)
Definition is_install (e : entry) : bool :=
  match e with Did (RouterUse _ _) | Did (RouterGet _ _) => true | _ => false end.

(** What touches the router or the evaluator slot follows a resolved
    [update.initialize()]. *)
Definition after_initialize (e' e : entry) : Prop :=
  if is_install e || is_construction e || is_registration e
  then exists db, e' = Asked UpdateInitialize (Normal db)
  else True.

(** A route follows a resolved [mongoose.connect]. *)
Definition after_connect (e' e : entry) : Prop :=
  match e with
  | Did (RouterUse _ h) | Did (RouterGet _ h) =>
      if is_route h
      then exists mongoUrl mongoConfig v,
          e' = Asked (MongooseConnect mongoUrl mongoConfig) (Normal v)
      else True
  | _ => True
  end.

(** The place of a handler in the order in which index.js lists them. *)
Definition handler_rank (h : handler) : option nat :=
  match h with
  | MemoryLeakPrevention => Some 0
  | Middleware name =>
      if String.eqb name "alias" then Some 1
      else if String.eqb name "params" then Some 2
      else if String.eqb name "tokenHandler" then Some 8
      else if String.eqb name "accessHandler" then Some 12
      else if String.eqb name "configHandler" then Some 13
      else if String.eqb name "permissionHandler" then Some 14
      else None
  | UpdateSanityCheck => Some 3
  | BodyParserUrlencoded => Some 4
  | BodyParserJson => Some 5
  | MalformedJson => Some 6
  | CorsWrapper _ => Some 7
  | Auth name =>
      if String.eqb name "tempToken" then Some 9
      else if String.eqb name "logout" then Some 10
      else None
  | Altered _ => Some 11
  | FormComponents => Some 15
  | Swagger path =>
      if String.eqb path "/spec.json" then Some 16
      else if String.eqb path "/form/:formId/spec.json" then Some 17
      else None
  end.

Definition layer_rank (e : entry) : option nat :=
  match e with
  | Did (RouterUse _ h) | Did (RouterGet _ h) => handler_rank h
  | _ => None
  end.

Definition before (rk : entry -> option nat) (e1 e2 : entry) : Prop :=
  forall r1 r2, rk e1 = Some r1 -> rk e2 = Some r2 -> r1 < r2.



(** [if (!ps.hasOwnProperty(k)) ps.k = v] on the properties of an object. *)
Definition with_default (k : string) (v : value) (ps : list (string * value))
  : list (string * value) :=
  if bool_decide (is_Some (assoc_get k ps)) then ps else assoc_set k v ps.

(** What [mongoose.connect] is called with. *)
Definition connects_with (Q : value -> value -> Prop) (e : entry) : Prop :=
  match e with
  | Asked (MongooseConnect mongoUrl mongoConfig) _ => Q mongoUrl mongoConfig
  | _ => True
  end.

Definition is_initialize_call (c : call) : bool :=
  match c with UpdateInitialize => true | _ => false end.

Definition is_connect_call (c : call) : bool :=
  match c with MongooseConnect _ _ => true | _ => false end.

(** The event is no call of the kind [C]. *)
Definition unasked (C : call -> bool) (e : entry) : Prop :=
  match e with Asked c _ => C c = false | Did _ => True end.

(** When a call of the kind [C] throws, the run has no event of the kind
    [P]. *)
Definition stops {A} (C : call -> bool) (P : entry -> bool) (p : js A) : Prop :=
  forall o h c x,
    C c = true -> In (Asked c (Throws x)) (trace_of o h p) ->
    count P (trace_of o h p) = 0.

(** The event touches the router or the evaluator. *)
Definition touches (e : entry) : bool :=
  is_install e || is_construction e || is_registration e.

(** The event installs one of the routes of [connectToMongoDB]. *)
Definition installs_route (e : entry) : bool :=
  match e with
  | Did (RouterUse _ h) | Did (RouterGet _ h) => is_route h
  | _ => false
  end.

(** The event installs the handler of rank [r]. *)
Definition has_rank (r : nat) (e : entry) : bool :=
  match layer_rank e with
  | Some r' => Nat.eqb r r'
  | None => false
  end.

(** The fields of [router.formio] that [router.init] assigns. *)
Definition init_fields : list string :=
  ["hooks"; "util"; "hook"; "encrypt"; "update"; "db"; "auth"; "BaseModel";
   "plugins"; "schemas"; "models"; "resources"; "cache"; "Action"; "actions";
   "templates"; "template"].

(** The fields of [router.formio] that [connectToMongoDB] assigns. *)
Definition connect_fields : list string :=
  ["BaseModel"; "plugins"; "schemas"; "models"; "resources"; "cache"; "Action";
   "actions"; "templates"; "template"; "db"].

(** [F'] is [F] but for the fields [ks]. *)
Definition differs_at (ks : list string) (F F' : gmap string value) : Prop :=
  forall k, ~ In k ks -> F' !! k = F !! k.

Section ConnectBlocks.
Context `{!Host}.

(** The [try] block of [connectToMongoDB]. *)
Definition connectToMongoDB_try (F : gmap string value) (mongoUrl mongoConfig : value)
  : js (gmap string value) :=
  ask (MongooseConnect mongoUrl mongoConfig);;
  act (UtilLog [VStr " > Mongo connection established."]);;
  baseModel ← ask (Require "./src/models/BaseModel");
  let F := <["BaseModel" := baseModel]> F in
  plugins ← ask (Require "./src/plugins/plugins");
  let F := <["plugins" := plugins]> F in
  permission ← ask (Require "./src/models/PermissionSchema");
  access ← ask (Require "./src/models/AccessSchema");
  fieldMatch ← ask (Require "./src/models/FieldMatchAccessPermissionSchema");
  let schemas := VObject [("PermissionSchema", permission);
                          ("AccessSchema", access);
                          ("FieldMatchAccessPermissionSchema", fieldMatch)] in
  let F := <["schemas" := schemas]> F in
  models ← ask (Require "./src/models/models");
  modelSchemas ← lift (get_prop models "schemas");
  let F := <["schemas" := object_spread schemas modelSchemas]> F in
  modelModels ← lift (get_prop models "models");
  let F := <["models" := modelModels]> F in
  resources ← ask (Require "./src/resources/resources");
  let F := <["resources" := resources]> F in
  cache ← ask (Require "./src/cache/cache");
  let F := <["cache" := cache]> F in
  act (RouterGet "/form/:formId/components" FormComponents);;
  action ← lift (get_prop modelModels "action");
  let F := <["Action" := action]> F in
  actions ← ask (Require "./src/actions/actions");
  let F := <["actions" := actions]> F in
  ask (Require "./src/export/export");;
  default ← ask (Require "./src/templates/default.json");
  let F := <["templates" := VObject [("default", default)]]> F in
  template ← ask (Require "./src/templates/index");
  let F := <["template" := template]> F in
  ask (Require "./src/util/swagger");;
  act (RouterGet "/spec.json" (Swagger "/spec.json"));;
  act (RouterGet "/form/:formId/spec.json" (Swagger "/form/:formId/spec.json"));;
  ask (Require "./src/middleware/recaptcha");;
  mret (<["db" := VRef "mongoose.connection"]> F).

(** Its [catch] block: [util.log(err.message); throw err.message]. *)
Definition connectToMongoDB_catch (err : value) : js (gmap string value) :=
  message ← lift (get_prop err "message");
  act (UtilLog [message]);;
  throw message.

End ConnectBlocks.

Section MongoOptions.
Context `{!Host}.
Variable config : gmap string value.

(** [config.mongoConfig ? JSON.parse(config.mongoConfig) : {}] *)
Definition parsed_mongoConfig : outcome value :=
  if truthy (field config "mongoConfig")
  then json_parse (field config "mongoConfig")
  else Normal (VObject []).

(** The url that [setupMongoDBConnection] connects to. *)
Definition mongo_url : value :=
  match field config "mongo" with
  | VArray xs => VStr (array_join xs ",")
  | v => v
  end.

(** The options that [setupMongoDBConnection] connects with, when the
    parsed [config.mongoConfig] is an object of properties [ps]. *)
Definition mongo_options (ps : list (string * value)) : value :=
  let ps := with_default "connectTimeoutMS" (VNum (Num.of_Z 300000)) ps in
  let ps := with_default "socketTimeoutMS" (VNum (Num.of_Z 300000)) ps in
  let ca := js_or (field config "mongoSA") (field config "mongoCA") in
  let ps := if truthy ca
            then assoc_set "tlsCAFile" ca (assoc_set "tls" (VBool true) ps)
            else ps in
  if truthy (field config "mongoSSL")
  then object_spread (VObject ps) (field config "mongoSSL")
  else VObject ps.

End MongoOptions.

Section FilterNotions.
Context `{!Host} `{!Library}.

(** The entry matches the component as the boolean that its text names:
    [value === 'true' && actualValue === true], or the same with
    [false]. *)
Definition boolean_match (component : value) (entry : string * value) : bool :=
  truthy entry.2
  && (strict_eq_str entry.2 "true"
      && (match lodash_property entry.1 component with VBool true => true | _ => false end)
      || strict_eq_str entry.2 "false"
         && (match lodash_property entry.1 component with VBool false => true | _ => false end)).

(** The entry holds of the component: the property is there, for an
    empty value, and loosely equals the value otherwise. *)
Definition entry_holds (component : value) (entry : string * value) : bool :=
  if negb (truthy entry.2) then lodash_has component entry.1
  else loose_eq (lodash_property entry.1 component) entry.2.

End FilterNotions.

(** ** Further examples *)

(** A library to run examples on: properties are own properties, the
    components are listed as they are, and a SyntaxError is known by its
    name. *)
Definition example_library : Library := {|
  lodash_has := fun o k =>
    match o with
    | VObject ps => bool_decide (is_Some (assoc_get k ps))
    | _ => false
    end;
  lodash_property := fun k o =>
    match o with
    | VObject ps => default VUndefined (assoc_get k ps)
    | _ => VUndefined
    end;
  flattenComponents := fun v =>
    match v with
    | VArray xs => Normal xs
    | _ => Normal []
    end;
  instanceof_SyntaxError := fun e =>
    match get_prop e "name" with
    | Normal (VStr "SyntaxError") => true
    | _ => false
    end;
  object_to_primitive := fun _ => VStr "[object Object]"
|}.

(** A configuration with a certificate authority. *)
Definition tls_config : gmap string value :=
  <["mongoCA" := VStr "/etc/ssl/ca.pem"]> (<["mongoSA" := VStr EmptyString]> ∅).

(** The same, with driver options that switch TLS off again. *)
Definition ssl_config : gmap string value :=
  <["mongoSSL" := VObject [("tls", VBool false)]]> tls_config.

(** The text of the JSON object whose [connectTimeoutMS] is 1000. *)
Definition timeout_json : string :=
  let quote := String (Ascii.ascii_of_nat 34) EmptyString in
  "{" ++ quote ++ "connectTimeoutMS" ++ quote ++ ":1000}".

Definition syntax_error : value :=
  VObject [("name", VStr "SyntaxError"); ("message", VStr "Unexpected token")].

(** A host whose [JSON.parse] knows that one text. *)
Definition parsing_host : Host := {|
  string_to_number := fun _ => NaN;
  object_to_number := fun _ => NaN;
  json_parse := fun v =>
    if strict_eq_str v timeout_json
    then Normal (VObject [("connectTimeoutMS", VNum (Num.of_Z 1000))])
    else Throws syntax_error;
  array_join := fun _ _ => EmptyString;
  string_iter := chars;
  index_key := fun i => pretty i
|}.

Definition timeout_config : gmap string value :=
  <["mongoConfig" := VStr timeout_json]> ∅.

Definition broken_config : gmap string value :=
  <["mongoConfig" := VStr "{connectTimeoutMS"]> ∅.

(** The example environment, but the database refuses the connection. *)
Definition refusing_env : oracle :=
  fun h c =>
    match c with
    | MongooseConnect _ _ => Throws (VObject [("message", VStr "ECONNREFUSED")])
    | _ => example_env h c
    end.

(** The example environment, but [update.initialize()] rejects. *)
Definition outdated_env : oracle :=
  fun h c =>
    match c with
    | UpdateInitialize => Throws (VStr "schema is out of date")
    | _ => example_env h c
    end.

Definition gc_config : gmap string value :=
  <["maxOldSpace" := VNum (Num.of_Z 10)]> ∅.

(** A hidden text field and a visible number field. *)
Definition example_components : list value :=
  [VObject [("key", VStr "name"); ("type", VStr "textfield"); ("hidden", VBool true)];
   VObject [("key", VStr "age"); ("type", VStr "number"); ("hidden", VBool false)]].

Definition example_form : value :=
  VObject [("components", VArray example_components)].

(** ** The monad and its runs *)

Section Runs.
Context {A B : Type}.
Implicit Types (p : js A) (f : A -> js B) (o : oracle) (h : trace).

Lemma run_bind f p o h :
  run o h (p ≫= f) =
  match run o h p with
  | (Normal a, t) => let '(r, t') := run o (h ++ t) (f a) in (r, t ++ t')
  | (Throws e, t) => (Throws e, t)
  end.
Proof.
  unfold mbind, js_mbind. revert h.
  induction p as [[a|e]|a k IH|c k IH]; intros h; simpl.
  - rewrite app_nil_r. by destruct (run o h (f a)).
  - done.
  - rewrite IH. destruct (run o (h ++ [Did a]) k) as [[a'|e] t]; [|done].
    rewrite <- app_assoc. simpl. by destruct (run o _ (f a')).
  - rewrite IH. destruct (run o _ (k (o h c))) as [[a'|e] t]; [|done].
    rewrite <- app_assoc. simpl. by destruct (run o _ (f a')).
Qed.

Lemma trace_bind f p o h :
  trace_of o h (p ≫= f) =
  match result_of o h p with
  | Normal a => trace_of o h p ++ trace_of o (h ++ trace_of o h p) (f a)
  | Throws _ => trace_of o h p
  end.
Proof.
  unfold trace_of, result_of. rewrite run_bind.
  destruct (run o h p) as [[a|e] t]; [|done]. simpl.
  by destruct (run o (h ++ t) (f a)).
Qed.

Lemma result_bind f p o h :
  result_of o h (p ≫= f) =
  match result_of o h p with
  | Normal a => result_of o (h ++ trace_of o h p) (f a)
  | Throws e => Throws e
  end.
Proof.
  unfold trace_of, result_of. rewrite run_bind.
  destruct (run o h p) as [[a|e] t]; [|done]. simpl.
  by destruct (run o (h ++ t) (f a)).
Qed.

End Runs.

Lemma run_try_catch {A} (p : js A) (c : value -> js A) o h :
  run o h (try_catch p c) =
  match run o h p with
  | (Normal a, t) => (Normal a, t)
  | (Throws e, t) => let '(r, t') := run o (h ++ t) (c e) in (r, t ++ t')
  end.
Proof.
  revert h. induction p as [[a|e]|a k IH|q k IH]; intros h; simpl.
  - done.
  - rewrite app_nil_r. by destruct (run o h (c e)).
  - rewrite IH. destruct (run o (h ++ [Did a]) k) as [[a'|e] t]; [done|].
    rewrite <- app_assoc. simpl. by destruct (run o _ (c e)).
  - rewrite IH. destruct (run o _ (k (o h q))) as [[a'|e] t]; [done|].
    rewrite <- app_assoc. simpl. by destruct (run o _ (c e)).
Qed.

Lemma trace_try_catch {A} (p : js A) (c : value -> js A) o h :
  trace_of o h (try_catch p c) =
  match result_of o h p with
  | Normal _ => trace_of o h p
  | Throws e => trace_of o h p ++ trace_of o (h ++ trace_of o h p) (c e)
  end.
Proof.
  unfold trace_of, result_of. rewrite run_try_catch.
  destruct (run o h p) as [[a|e] t]; [done|]. simpl.
  by destruct (run o (h ++ t) (c e)).
Qed.

Lemma result_try_catch {A} (p : js A) (c : value -> js A) o h :
  result_of o h (try_catch p c) =
  match result_of o h p with
  | Normal a => Normal a
  | Throws e => result_of o (h ++ trace_of o h p) (c e)
  end.
Proof.
  unfold trace_of, result_of. rewrite run_try_catch.
  destruct (run o h p) as [[a|e] t]; [done|]. simpl.
  by destruct (run o (h ++ t) (c e)).
Qed.

Lemma trace_ask_bind {A} c (f : value -> js A) o h :
  trace_of o h (ask c ≫= f) =
  Asked c (o h c) ::
    match o h c with
    | Normal v => trace_of o (h ++ [Asked c (Normal v)]) (f v)
    | Throws _ => []
    end.
Proof.
  rewrite trace_bind. unfold trace_of, result_of. simpl. by destruct (o h c).
Qed.

Lemma count_app P t1 t2 : count P (t1 ++ t2) = count P t1 + count P t2.
Proof. induction t1 as [|e t1 IH]; simpl; [done|]. rewrite IH. lia. Qed.

Lemma count_or P Q t :
  (forall e, P e && Q e = false) ->
  count (fun e => P e || Q e) t = count P t + count Q t.
Proof.
  intros HPQ. induction t as [|e t IH]; simpl; [done|].
  rewrite IH. specialize (HPQ e). destruct (P e), (Q e); simpl in *; try done; lia.
Qed.

(** ** Rules for the properties of runs *)

Section Rules.
Context {A B : Type}.
Implicit Types (p : js A) (f : A -> js B) (P Q : entry -> bool).

Lemma quiet_bind P p f :
  quiet P p -> (forall a, quiet P (f a)) -> quiet P (p ≫= f).
Proof.
  intros Hp Hf o h. rewrite trace_bind.
  destruct (result_of o h p); [|apply Hp].
  rewrite count_app, Hp, Hf. done.
Qed.

Lemma single_bind_l P p f :
  single P p -> (forall a, quiet P (f a)) -> single P (p ≫= f).
Proof.
  intros Hp Hf o h. rewrite trace_bind, result_bind.
  destruct (Hp o h) as [Hle Heq].
  destruct (result_of o h p); [|done].
  rewrite count_app, Hf. split; [lia|]. intros _. rewrite Heq; done.
Qed.

Lemma single_bind_r P p f :
  quiet P p -> (forall a, single P (f a)) -> single P (p ≫= f).
Proof.
  intros Hp Hf o h. rewrite trace_bind, result_bind.
  destruct (result_of o h p) as [a|e].
  - rewrite count_app, Hp. apply Hf.
  - rewrite Hp. split; [lia | done].
Qed.

Lemma matched_bind P Q p f :
  matched P Q p -> (forall a, matched P Q (f a)) -> matched P Q (p ≫= f).
Proof.
  intros Hp Hf o h. rewrite trace_bind, result_bind.
  destruct (Hp o h) as [Hle Heq].
  destruct (result_of o h p) as [a|e]; [|done].
  rewrite !count_app.
  destruct (Hf a o (h ++ trace_of o h p)) as [Hle' Heq'].
  split; [lia|]. intros Hn. rewrite Heq, Heq'; done.
Qed.

Lemma every_bind (P : entry -> Prop) p f :
  every P p -> (forall a, every P (f a)) -> every P (p ≫= f).
Proof.
  intros Hp Hf o h. rewrite trace_bind.
  destruct (result_of o h p); [|apply Hp].
  apply Forall_app. split; [apply Hp | apply Hf].
Qed.

Lemma aborts_bind_l O P p f : aborts O P p -> aborts O P (p ≫= f).
Proof.
  intros Hp o h HO. rewrite trace_bind, result_bind.
  destruct (Hp o h HO) as [Hn Hc].
  destruct (result_of o h p); done.
Qed.

Lemma aborts_bind_r O P p f :
  quiet P p -> (forall a, aborts O P (f a)) -> aborts O P (p ≫= f).
Proof.
  intros Hp Hf o h HO. rewrite trace_bind, result_bind.
  destruct (result_of o h p) as [a|e].
  - rewrite count_app, Hp. apply Hf, HO.
  - by rewrite Hp.
Qed.


End Rules.

Section BaseRules.
Context {A : Type}.
Implicit Types (P Q : entry -> bool).

Lemma quiet_ret P (a : A) : quiet P (mret a).
Proof. done. Qed.

Lemma quiet_throw P e : quiet P (throw e : js A).
Proof. done. Qed.

Lemma quiet_lift P (r : outcome A) : quiet P (lift r).
Proof. done. Qed.

Lemma quiet_try P (p : js A) c :
  quiet P p -> (forall e, quiet P (c e)) -> quiet P (try_catch p c).
Proof.
  intros Hp Hc o h. rewrite trace_try_catch.
  destruct (result_of o h p); [apply Hp|]. by rewrite count_app, Hp, Hc.
Qed.

Lemma single_try P (p : js A) c :
  single P p -> (forall e, aborts (fun _ => True) P (c e)) -> single P (try_catch p c).
Proof.
  intros Hp Hc o h. rewrite trace_try_catch, result_try_catch.
  destruct (Hp o h) as [Hle Heq].
  destruct (result_of o h p) as [a|e]; [done|].
  destruct (Hc e o (h ++ trace_of o h p) I) as [Hn Hz].
  rewrite count_app, Hz, Hn. split; [lia | done].
Qed.

Lemma every_ret (P : entry -> Prop) (a : A) : every P (mret a).
Proof. intros o h. constructor. Qed.

Lemma every_throw (P : entry -> Prop) e : every P (throw e : js A).
Proof. intros o h. constructor. Qed.

Lemma every_lift (P : entry -> Prop) (r : outcome A) : every P (lift r).
Proof. intros o h. constructor. Qed.

Lemma every_try (P : entry -> Prop) (p : js A) c :
  every P p -> (forall e, every P (c e)) -> every P (try_catch p c).
Proof.
  intros Hp Hc o h. rewrite trace_try_catch.
  destruct (result_of o h p); [apply Hp|].
  apply Forall_app. split; [apply Hp | apply Hc].
Qed.

Lemma aborts_throw O P e : aborts O P (throw e : js A).
Proof. done. Qed.



End BaseRules.

Lemma quiet_act P a : P (Did a) = false -> quiet P (act a).
Proof. intros HP o h. unfold trace_of. simpl. by rewrite HP. Qed.

Lemma quiet_ask P c : (forall r, P (Asked c r) = false) -> quiet P (ask c).
Proof. intros HP o h. unfold trace_of. simpl. by rewrite HP. Qed.

Lemma quiet_member P v k : quiet P (member v k).
Proof. by destruct v. Qed.

Lemma single_act P a : P (Did a) = true -> single P (act a).
Proof. intros HP o h. unfold trace_of. simpl. rewrite HP. by split. Qed.

Lemma single_ask P c :
  (forall v, P (Asked c (Normal v)) = true) -> single P (ask c).
Proof.
  intros HP o h. unfold trace_of, result_of. simpl.
  destruct (o h c) as [v|e]; simpl.
  - rewrite HP. by split.
  - destruct (P _); split; (lia || done).
Qed.

Lemma every_act (P : entry -> Prop) a : P (Did a) -> every P (act a).
Proof. intros HP o h. unfold trace_of. simpl. by repeat constructor. Qed.

Lemma every_ask (P : entry -> Prop) c : (forall r, P (Asked c r)) -> every P (ask c).
Proof. intros HP o h. unfold trace_of. simpl. by repeat constructor. Qed.

Lemma every_member (P : entry -> Prop) v k : every P (member v k).
Proof. intros o h. destruct v; constructor. Qed.

Create HintDb runs discriminated.

#[export] Hint Resolve quiet_ret quiet_throw quiet_lift quiet_member : runs.
#[export] Hint Resolve every_ret every_throw every_lift every_member : runs.
#[export] Hint Resolve aborts_throw : runs.

(** The blocks of [router.init]. *)
Ltac open_block :=
  progress unfold init_step, hook_invoke, hook_alter, use_middleware, get_auth,
    setupMemoryLeakPrevention, setupMiddlewares, configureEvaluator, ensure_default,
    connectToMongoDB, setupMongoDBConnection.

(** One step through a program, for the property at hand. *)
Ltac branch :=
  lazymatch goal with
  | |- _ (if ?b then _ else _) => destruct b
  | |- _ (match ?x with _ => _ end) => destruct x
  end.

Ltac quiet_step :=
  first
    [ apply quiet_bind; [|intros ?]
    | apply quiet_try; [|intros ?]
    | apply quiet_act; reflexivity
    | apply quiet_ask; intros [?|?]; reflexivity
    | solve [auto with runs]
    | branch ].

Ltac quietly := cbv zeta; repeat first [quiet_step | open_block].

Ltac every_step leaf :=
  first
    [ apply every_bind; [|intros ?]
    | apply every_try; [|intros ?]
    | apply every_act; leaf
    | apply every_ask; intros [?|?]; leaf
    | solve [auto with runs]
    | branch
    | open_block ].

Ltac everywhere leaf := cbv zeta; repeat every_step leaf.

Lemma matched_quiet {A} P Q (p : js A) : quiet P p -> quiet Q p -> matched P Q p.
Proof. intros HP HQ o h. rewrite HP, HQ. done. Qed.

(** A call of the hook system either fails on a missing registry, before
    anything happens, or is answered by the environment. *)
Lemma hook_invoke_run F name args o h :
  (exists e, run o h (hook_invoke F name args) = (Throws e, [])) \/
  run o h (hook_invoke F name args)
  = (o h (HookInvoke name args), [Asked (HookInvoke name args) (o h (HookInvoke name args))]).
Proof.
  unfold hook_invoke. rewrite run_bind.
  destruct (field F "hook"); simpl; rewrite ?app_nil_r; eauto.
Qed.

Lemma hook_alter_run F name args o h :
  (exists e, run o h (hook_alter F name args) = (Throws e, [])) \/
  run o h (hook_alter F name args)
  = (o h (HookAlter name args), [Asked (HookAlter name args) (o h (HookAlter name args))]).
Proof.
  unfold hook_alter. rewrite run_bind.
  destruct (field F "hook"); simpl; rewrite ?app_nil_r; eauto.
Qed.

(** The guarded installation of one step: the default goes in exactly
    when the hook returned a falsy value. *)
Lemma matched_init_step P Q F step install :
  (forall r, P (Asked (HookInvoke "init" [VStr step; formio_ref]) r) = false) ->
  (forall v, Q (Asked (HookInvoke "init" [VStr step; formio_ref]) (Normal v))
             = negb (truthy v)) ->
  (forall e, Q (Asked (HookInvoke "init" [VStr step; formio_ref]) (Throws e)) = false) ->
  single P install -> quiet Q install ->
  matched P Q (init_step F step install).
Proof.
  intros HP HQ HQe Hi Hq o h. unfold init_step.
  rewrite trace_bind, result_bind. unfold trace_of, result_of.
  destruct (hook_invoke_run F "init" [VStr step; formio_ref] o h) as [[e ->]| ->];
    simpl; [done|].
  destruct (o h _) as [v|e]; simpl; rewrite HP, ?HQ, ?HQe; [|done].
  destruct (truthy v); simpl; [done|].
  match goal with
  | |- context [run o ?h' install] =>
      destruct (Hi o h') as [Hle Heq]; pose proof (Hq o h') as Hz
  end.
  unfold trace_of, result_of in *. rewrite Hz.
  split; [lia | intros Hn; rewrite Heq; done].
Qed.

Ltac aborting :=
  cbv zeta;
  repeat first
    [ apply aborts_throw
    | apply aborts_bind_r; [solve [quietly] | intros ?] ].

Ltac single_step :=
  first
    [ apply single_bind_r; [solve [quietly] | intros ?]
    | apply single_bind_l; [| intros ?; solve [quietly]]
    | apply single_try; [| intros ?; solve [aborting]]
    | apply single_act; reflexivity
    | apply single_ask; intros v;
        first [ reflexivity
              | unfold invoke_answered, formio_ref; simpl; destruct (truthy v);
                reflexivity ]
    | open_block ].

Ltac singly := cbv zeta; repeat single_step.

Ltac matched_step :=
  lazymatch goal with
  | |- matched _ _ (init_step _ _ _) =>
      first
        [ apply matched_quiet; solve [quietly]
        | apply matched_init_step;
            [ intros [?|?]; reflexivity
            | intros v; simpl; destruct (truthy v); reflexivity
            | reflexivity
            | solve [singly]
            | solve [quietly] ] ]
  | |- matched _ _ (mbind _ _) => apply matched_bind; [|intros ?]
  | |- _ => apply matched_quiet; solve [quietly]
  end.

Ltac matching := cbv zeta; repeat matched_step.

Section Middlewares.
Variable F : gmap string value.

Lemma invoke_answered_once step :
  In step init_steps -> single (invoke_answered step) (setupMiddlewares F).
Proof.
  intros Hstep. unfold init_steps in Hstep. simpl in Hstep.
  unfold setupMiddlewares.
  repeat destruct Hstep as [<-|Hstep]; try done; singly.
Qed.

Lemma default_matches_falsy step :
  In step init_steps ->
  matched (installs_default step) (invoke_returned step false) (setupMiddlewares F).
Proof.
  intros Hstep. unfold init_steps in Hstep. simpl in Hstep.
  unfold setupMiddlewares.
  repeat destruct Hstep as [<-|Hstep]; try done; matching.
Qed.

End Middlewares.

Section MoreRules.
Context {A B : Type}.
Implicit Types (p : js A) (f : A -> js B).

Lemma supported_bind R p f :
  supported R p -> (forall a, supported R (f a)) -> supported R (p ≫= f).
Proof.
  intros Hp Hf o h e. rewrite trace_bind.
  destruct (result_of o h p) as [a|x]; [|apply Hp].
  rewrite in_app_iff. intros [He|He].
  - destruct (Hp o h e He) as (e' & ? & ?). exists e'. rewrite in_app_iff. eauto.
  - destruct (Hf a o _ e He) as (e' & ? & ?). exists e'. rewrite in_app_iff. eauto.
Qed.

Lemma supported_every R p : every (fun e => R e e) p -> supported R p.
Proof.
  intros Hp o h e He. exists e. split; [done|].
  specialize (Hp o h). rewrite Forall_forall in Hp. apply Hp.
  by apply list_elem_of_In.
Qed.

Lemma returns_bind (R : B -> Prop) p f :
  (forall a, returns R (f a)) -> returns R (p ≫= f).
Proof.
  intros Hf o h b. rewrite result_bind.
  destruct (result_of o h p) as [a|x]; [apply Hf | done].
Qed.

Lemma every_bind_returns (P : entry -> Prop) (R : A -> Prop) p f :
  returns R p -> every P p -> (forall a, R a -> every P (f a)) -> every P (p ≫= f).
Proof.
  intros Hr Hp Hf o h. rewrite trace_bind.
  destruct (result_of o h p) as [a|x] eqn:Ha; [|apply Hp].
  apply Forall_app. split; [apply Hp | apply Hf]. by eapply Hr.
Qed.

End MoreRules.

Lemma returns_ret {A} (R : A -> Prop) a : R a -> returns R (mret a).
Proof. intros Ha o h a' [= <-]. done. Qed.

(** What a call was answered is what the environment said. *)
Lemma answers_of_oracle {A} (p : prog A) o h c r :
  In (Asked c r) (trace_of o h p) -> exists h', r = o h' c.
Proof.
  unfold trace_of. revert h. induction p as [a|a k IH|q k IH]; intros h; simpl.
  - done.
  - destruct (run o (h ++ [Did a]) k) as [x t] eqn:E. simpl.
    intros [?|Hin]; [done|]. apply (IH (h ++ [Did a])). by rewrite E.
  - destruct (run o _ (k (o h q))) as [x t] eqn:E. simpl.
    intros [[= <- <-]|Hin]; [eauto|]. eapply (IH _ _). by rewrite E.
Qed.

(** Membership in a trace that is written out. *)
Ltac in_trace :=
  intros; simpl in *;
  repeat match goal with
    | H : _ \/ _ |- _ => destruct H
    | H : _ /\ _ |- _ => destruct H
    | H : exists _, _ |- _ => destruct H
    | H : False |- _ => destruct H
    | H : @eq entry _ _ |- _ => first [discriminate H | injection H as ?; subst]
    | H : @eq (outcome _) _ _ |- _ => first [discriminate H | injection H as ?; subst]
    end;
  try congruence; simpl; eauto 6;
  try solve [repeat first [left; congruence | right]].

(** Running a program whose next step is known. *)
Ltac run_program :=
  unfold trace_of, result_of, act, ask, lift, throw, mbind, js_mbind, mret, js_mret;
  cbn [run js_bind try_catch fst snd].

(** ** router.init *)


Section Boot.
Context `{!Host}.
Variable config : gmap string value.











Lemma init_constructs_once F hooks :
  single is_construction (init config F hooks).
Proof. unfold init. singly. Qed.

Lemma init_registers_once F hooks :
  single is_registration (init config F hooks).
Proof. unfold init. singly. Qed.

Lemma init_installs_leak_prevention F hooks :
  single is_leak_install (init config F hooks).
Proof. unfold init. singly. Qed.


End Boot.

Section Evaluator.
Context `{!Host}.
Variable config : gmap string value.

Lemma setupMiddlewares_keeps_hook F :
  returns (fun F' => field F' "hook" = field F "hook") (setupMiddlewares F).
Proof.
  unfold setupMiddlewares. cbv zeta.
  repeat first [apply returns_bind; intros ? | apply returns_ret].
  unfold field. by rewrite lookup_insert_ne.
Qed.

Lemma init_constructs_with_hook F hooks o h options hk r :
  let t := trace_of o h (init config F hooks) in
  In (Asked (NewIsolateVMEvaluator options hk) r) t ->
  options = VObject [("timeoutMs", field config "vmTimeout")] /\
  In (Asked (Require "./src/util/hook") (Normal hk)) t.
Proof.
  unfold init. cbv zeta. rewrite trace_ask_bind.
  destruct (o h _) as [hook|e]; [|in_trace].
  intros [?|Hin]; [done|].
  match type of Hin with
  | In _ (trace_of o ?h' ?p) =>
      assert (every (constructed_with config hook) p) as Hp
  end.
  { do 7 (apply every_bind; [everywhere ltac:(done)|intros ?]).
    eapply every_bind_returns;
      [apply setupMiddlewares_keeps_hook | everywhere ltac:(done) |].
    intros F' HF'. everywhere ltac:(done).
    apply every_ask. intros ?. split; [done|]. rewrite HF'.
    unfold field. by simplify_map_eq. }
  specialize (Hp o (h ++ [Asked (Require "./src/util/hook") (Normal hook)])).
  rewrite Forall_forall in Hp. apply list_elem_of_In, Hp in Hin.
  destruct Hin as [-> ->]. split; [done | by left].
Qed.

Lemma configureEvaluator_registers F :
  supported registers_constructed (configureEvaluator config F).
Proof.
  intros o h e. unfold configureEvaluator. run_program.
  destruct (o h _) as [ev|x]; simpl.
  - intros [<-|[<-|[]]]; eexists; (split; [|simpl; eauto]); simpl; eauto.
  - intros [<-|[]]. eexists; (split; [|simpl; eauto]); simpl; eauto.
Qed.

Lemma init_registers_constructed F hooks :
  supported registers_constructed (init config F hooks).
Proof.
  unfold init. cbv zeta.
  do 9 (apply supported_bind;
        [apply supported_every; solve [everywhere ltac:(done)] | intros ?]).
  apply supported_bind; [apply configureEvaluator_registers | intros ?].
  apply supported_every; everywhere ltac:(done).
Qed.

(** With the evaluator of the spec, an invalid budget stops the boot at
    the construction. *)
Lemma configureEvaluator_aborts F :
  IsolateVM.valid_timeout (field config "vmTimeout") = false ->
  aborts IsolateVM.provides is_registration (configureEvaluator config F).
Proof.
  intros Hbad o h Ho. unfold configureEvaluator. run_program.
  rewrite Ho. unfold IsolateVM.construct. simpl. rewrite Hbad. done.
Qed.

Lemma init_aborts F hooks :
  IsolateVM.valid_timeout (field config "vmTimeout") = false ->
  aborts IsolateVM.provides is_registration (init config F hooks).
Proof.
  intros Hbad. unfold init. cbv zeta.
  do 9 (apply aborts_bind_r; [solve [quietly] | intros ?]).
  apply aborts_bind_l, configureEvaluator_aborts, Hbad.
Qed.

End Evaluator.

Section Cors.
Variable F : gmap string value.

Lemma supported_hook_alter {A} R name args (f : value -> js A) :
  (forall r, R (Asked (HookAlter name args) r) (Asked (HookAlter name args) r)) ->
  (forall v, every (R (Asked (HookAlter name args) (Normal v))) (f v)) ->
  supported R (hook_alter F name args ≫= f).
Proof.
  intros Hc Hf o h e. rewrite trace_bind. unfold trace_of, result_of.
  destruct (hook_alter_run F name args o h) as [[x ->]| ->]; simpl; [done|].
  destruct (o h _) as [v|x]; simpl.
  - intros [<-|Hin]; [eauto|].
    eexists. split; [left; reflexivity|].
    specialize (Hf v o (h ++ [Asked (HookAlter name args) (Normal v)])).
    rewrite Forall_forall in Hf. by apply Hf, list_elem_of_In.
  - intros [<-|[]]. eauto.
Qed.

Lemma setupMiddlewares_cors : supported cors_from_alter (setupMiddlewares F).
Proof.
  unfold setupMiddlewares. cbv zeta.
  do 7 (apply supported_bind;
        [apply supported_every; solve [everywhere ltac:(done)] | intros ?]).
  apply supported_hook_alter; [done|]. intros v. everywhere ltac:(done).
Qed.

Lemma setupMiddlewares_alters_cors_once : single is_cors_alter (setupMiddlewares F).
Proof. unfold setupMiddlewares. singly. Qed.

Lemma setupMiddlewares_installs_cors_once :
  single is_cors_install (setupMiddlewares F).
Proof. unfold setupMiddlewares. singly. Qed.

Lemma setupMiddlewares_cors_path : every cors_without_path (setupMiddlewares F).
Proof. unfold setupMiddlewares. everywhere ltac:(done). Qed.

End Cors.

Section Registry.
Import HookRegistry.

Lemma invoke_all_not_false hs args : invoke_all hs args <> Normal false.
Proof.
  induction hs as [|h' hs IH]; simpl; [done|]. by destruct (h' args).
Qed.

(** Handlers that decline leave the value as it is. *)
Lemma alter_with_declined hs v args :
  Forall (fun hd => hd (v :: args) = Normal None) hs ->
  alter_with hs v args = Normal v.
Proof. induction 1 as [|hd hs Hhd _ IH]; simpl; [done|]. by rewrite Hhd. Qed.

Lemma invoke_false_iff (R : gmap string (list handler)) point args :
  invoke R point args = Normal false <-> handlers R point = [].
Proof.
  unfold invoke. destruct (handlers R point) as [|hd tl]; [done|].
  split; [|done]. intros Hf. by apply invoke_all_not_false in Hf.
Qed.

End Registry.

Lemma count_positive P t : 0 < count P t -> exists e, In e t /\ P e = true.
Proof.
  induction t as [|e t IH]; simpl; [lia|].
  destruct (P e) eqn:He; [eauto|]. intros Hpos.
  destruct IH as (e' & ? & ?); [lia | eauto].
Qed.

Lemma strict_eq_str_spec v s : strict_eq_str v s = true <-> v = VStr s.
Proof.
  destruct v; simpl; try (split; [done | discriminate]).
  rewrite String.eqb_eq. split; congruence.
Qed.


(** ** Examples *)

(** [10 * 0.8 < 67108864 / 1024 / 1024], and not with [2048] in the place
    of [10]. *)
Example heap_above_threshold :
  Num.ltb (Num.mul (Num.of_Z 10) (Fin (8 # 10)))
    (Num.div (Num.div (Num.of_Z 67108864) (Num.of_Z 1024)) (Num.of_Z 1024)) = true /\
  Num.ltb (Num.mul (Num.of_Z 2048) (Fin (8 # 10)))
    (Num.div (Num.div (Num.of_Z 67108864) (Num.of_Z 1024)) (Num.of_Z 1024)) = false.
Proof. split; vm_compute; reflexivity. Qed.

(** Without hooks and with a budget of 500 ms the boot goes through: 55
    events, the last one the recaptcha module. *)
Example init_example_run :
  let boot := @init example_host example_config example_formio VUndefined in
  is_normal (result_of example_env [] boot) = true /\
  length (trace_of example_env [] boot) = 55 /\
  last (trace_of example_env [] boot)
  = Some (Asked (Require "./src/middleware/recaptcha") (Normal (VObject []))).
Proof. vm_compute. done. Qed.

(** Without [config.vmTimeout] the boot stops where the evaluator of the
    spec refuses its options. *)
Example init_without_timeout :
  let boot := @init example_host ∅ example_formio VUndefined in
  last (trace_of example_env [] boot)
  = Some (Asked (NewIsolateVMEvaluator (VObject [("timeoutMs", VUndefined)])
                   (VObject []))
            (Throws IsolateVM.ConfigurationError)) /\
  result_of example_env [] boot = Throws IsolateVM.ConfigurationError.
Proof. vm_compute. done. Qed.

(** An audit line, without hooks: the info is printed as it came. *)
Example audit_example :
  trace_of example_env []
    (@audit example_host example_config example_formio (VStr "login") (VRef "req")
       [VStr "user"; VStr "ok"])
  = [Asked (HookAlter "audit" [VArray [VStr "user"; VStr "ok"]; VStr "login"; VRef "req"])
       (Normal (VArray [VStr "user"; VStr "ok"]));
     Did (ConsoleLog [VStr "user"; VStr "ok"])].
Proof. vm_compute. reflexivity. Qed.

(** ** The claims *)

(** C1. With the evaluator of the spec, a [config.vmTimeout] that is
    absent or is no positive integer number makes [router.init] fail at
    the construction of the evaluator: the boot ends in a throw and
    [registerEvaluator] is never called. *)
Theorem init_rejects_invalid_timeout `{!Host} (config F : gmap string value) hooks o h :
  IsolateVM.provides o ->
  config !! "vmTimeout" = None \/
    IsolateVM.valid_timeout (field config "vmTimeout") = false ->
  is_normal (result_of o h (init config F hooks)) = false /\
  count is_registration (trace_of o h (init config F hooks)) = 0.
Proof.
  intros Ho Hbad. apply init_aborts; [|done].
  destruct Hbad as [Habsent|Hbad]; [|done].
  unfold field. by rewrite Habsent.
Qed.

Lemma init_rejects_invalid_timeout_witness :
  is_normal (result_of example_env [] (@init example_host ∅ example_formio VUndefined)) = false /\
  count is_registration (trace_of example_env [] (@init example_host ∅ example_formio VUndefined)) = 0.
Proof.
  apply (@init_rejects_invalid_timeout example_host ∅ example_formio VUndefined example_env []).
  - intros h options hook. reflexivity.
  - left. reflexivity.
Defined.

(** C2. For each of the nine steps that [setupMiddlewares] offers to the
    hooks, [hook.invoke('init', step, router.formio)] is answered at most
    once, and the default of the step is installed at most as often as the
    answer was falsy; when [setupMiddlewares] returns, the hook was asked
    exactly once and the default is installed exactly when the answer was
    falsy. *)
Theorem default_installed_iff_not_overridden (F : gmap string value) o h step :
  In step init_steps ->
  let t := trace_of o h (setupMiddlewares F) in
  let truthy_answers := count (invoke_returned step true) t in
  let falsy_answers := count (invoke_returned step false) t in
  let installed := count (installs_default step) t in
  truthy_answers + falsy_answers <= 1 /\
  installed <= falsy_answers /\
  (is_normal (result_of o h (setupMiddlewares F)) ->
   truthy_answers + falsy_answers = 1 /\ installed = falsy_answers).
Proof.
  intros Hstep t.
  destruct (invoke_answered_once F step Hstep o h) as [Hle Heq].
  destruct (default_matches_falsy F step Hstep o h) as [Hle' Heq'].
  unfold invoke_answered in Hle, Heq. fold t in Hle, Heq, Hle', Heq'.
  rewrite count_or in Hle, Heq
    by (intros e; unfold invoke_returned;
        repeat (case_match; try done); destruct (truthy _); simpl;
        rewrite ?andb_false_r; done).
  simpl. split_and!; [done..|]. intros Hn. split; auto.
Qed.

Lemma default_installed_iff_not_overridden_witness :
  let t := trace_of example_env [] (setupMiddlewares example_formio) in
  count (invoke_returned "current" false) t = 1 /\
  count (installs_default "current") t = 1.
Proof.
  assert (In "current" init_steps) as Hin by (simpl; tauto).
  destruct (default_installed_iff_not_overridden example_formio example_env []
              "current" Hin) as (_ & _ & Hdone).
  destruct Hdone as [_ Hinst]; [vm_compute; exact I|].
  simpl. rewrite Hinst. split; vm_compute; reflexivity.
Defined.




(** C5. A run of [router.init] constructs at most one evaluator and calls
    [registerEvaluator] at most once, and exactly once each when
    [router.init] returns.  The evaluator is constructed with
    [{timeoutMs: config.vmTimeout}] and the hook system this run created,
    and what is registered is the constructed instance. *)
Theorem init_one_evaluator `{!Host} (config F : gmap string value) hooks o h :
  let t := trace_of o h (init config F hooks) in
  count is_construction t <= 1 /\
  count is_registration t <= 1 /\
  (is_normal (result_of o h (init config F hooks)) ->
   count is_construction t = 1 /\ count is_registration t = 1) /\
  (forall options hook r,
      In (Asked (NewIsolateVMEvaluator options hook) r) t ->
      options = VObject [("timeoutMs", field config "vmTimeout")] /\
      In (Asked (Require "./src/util/hook") (Normal hook)) t) /\
  (forall evaluator,
      In (Did (RegisterEvaluator evaluator)) t ->
      exists options hook,
        In (Asked (NewIsolateVMEvaluator options hook) (Normal evaluator)) t).
Proof.
  intros t.
  destruct (init_constructs_once config F hooks o h) as [Hc Hc1].
  destruct (init_registers_once config F hooks o h) as [Hr Hr1].
  split_and!; [done | done | by split; auto | |].
  - intros options hook r.
    exact (init_constructs_with_hook config F hooks o h options hook r).
  - intros evaluator Hin.
    destruct (init_registers_constructed config F hooks o h _ Hin)
      as (e' & He' & options & hook & ->).
    exists options, hook. exact He'.
Qed.

Lemma init_one_evaluator_witness :
  let t := trace_of example_env []
             (@init example_host example_config example_formio VUndefined) in
  let instance :=
    VObject [("timeoutMs", VNum (Num.of_Z 500)); ("hook", VObject [])] in
  (count is_construction t = 1 /\ count is_registration t = 1) /\
  In (Asked (Require "./src/util/hook") (Normal (VObject []))) t /\
  (exists options hook,
      In (Asked (NewIsolateVMEvaluator options hook) (Normal instance)) t).
Proof.
  cbv zeta.
  pose proof (@init_one_evaluator example_host example_config example_formio VUndefined
                example_env []) as Hone.
  cbv zeta in Hone. destruct Hone as (_ & _ & Hdone & Hwith & Hreg).
  split_and!.
  - apply Hdone. vm_compute. exact I.
  - apply Hdone. vm_compute. exact I.
  - refine (proj2 (Hwith (VObject [("timeoutMs", VNum (Num.of_Z 500))]) (VObject [])
                     (Normal (VObject [("timeoutMs", VNum (Num.of_Z 500));
                                       ("hook", VObject [])])) _)).
    apply (nth_error_In _ 33). vm_compute. reflexivity.
  - refine (Hreg _ _). apply (nth_error_In _ 34). vm_compute. reflexivity.
Defined.



(** C7. In the Hook Registry of the spec, [alter] on an extension point
    without handlers returns the value unchanged. *)
Theorem alter_identity_without_handlers
    (R : gmap string (list HookRegistry.handler)) point v args :
  HookRegistry.handlers R point = [] ->
  HookRegistry.alter R point v args = Normal v.
Proof. intros Hnone. unfold HookRegistry.alter. by rewrite Hnone. Qed.

Lemma alter_identity_without_handlers_witness :
  HookRegistry.alter ∅ "cors" (VStr "*") [] = Normal (VStr "*").
Proof.
  apply (alter_identity_without_handlers ∅ "cors" (VStr "*") []). reflexivity.
Defined.




(** C9. The memory-leak-prevention middleware that [router.init] installs
    first sets [util.Formio.forms] and [util.Formio.cache] to empty
    objects and last calls [next()], once, and returns; this holds
    whatever reading the heap and collecting garbage do, and what one of
    them throws is logged on the console. *)
Theorem memoryLeakPrevention_always_proceeds `{!Host} (config : gmap string value)
    req res o h :
  let t := trace_of o h (memoryLeakPrevention config) in
  run_handler config MemoryLeakPrevention req res = Some (memoryLeakPrevention config) /\
  (forall F hooks o' h',
      is_normal (result_of o' h' (init config F hooks)) ->
      count is_leak_install (trace_of o' h' (init config F hooks)) = 1) /\
  result_of o h (memoryLeakPrevention config) = Normal tt /\
  (exists rest,
      t = Did (SetUtilFormio "forms" (VObject []))
          :: Did (SetUtilFormio "cache" (VObject [])) :: rest ++ [Did Next] /\
      count is_next rest = 0) /\
  (forall c e, In (Asked c (Throws e)) t -> In (Did (ConsoleLog [e])) t).
Proof.
  intros t. split; [done|]. split.
  { intros F hooks o' h'. apply init_installs_leak_prevention. }
  subst t. unfold memoryLeakPrevention.
  destruct (truthy (field config "maxOldSpace")); run_program.
  2:{ split_and!; [done| exists []; done | in_trace]. }
  destruct (o _ MemoryUsage) as [usage|e]; run_program.
  2:{ split_and!; [done| eexists [_; _]; done | in_trace]. }
  destruct (get_prop usage "heapTotal") as [heapTotal|e]; run_program.
  2:{ split_and!; [done| eexists [_; _]; done | in_trace]. }
  destruct (Num.ltb _ _); run_program.
  2:{ split_and!; [done| eexists [_]; done | in_trace]. }
  destruct (o _ Gc) as [?|e]; run_program.
  - split_and!; [done| eexists [_; _]; done | in_trace].
  - split_and!; [done| eexists [_; _; _]; done | in_trace].
Qed.

Lemma memoryLeakPrevention_always_proceeds_witness :
  In (Did (ConsoleLog [VStr "failure"]))
    (trace_of failing_env [] (@memoryLeakPrevention example_host example_config)) /\
  result_of failing_env [] (@memoryLeakPrevention example_host example_config)
  = Normal tt.
Proof.
  pose proof (@memoryLeakPrevention_always_proceeds example_host example_config
                (Request (VStr "/form")) (Response (VBool false)) failing_env [])
    as Hleak.
  cbv zeta in Hleak. destruct Hleak as (_ & _ & Hret & _ & Hlogged).
  split; [|exact Hret].
  specialize (Hlogged MemoryUsage (VStr "failure")).
  vm_compute in Hlogged. vm_compute. apply Hlogged.
  right; right; left; reflexivity.
Defined.

(** C10. The handler that [setupMiddlewares] installs for CORS is the
    wrapper.  The wrapper calls [next()] and not the cors handler when the
    url of the request is '/' or the headers of the response were sent,
    and hands every other request to the cors handler.  A run of
    [setupMiddlewares] calls [hook.alter('cors')] at most once and
    installs the wrapper at most once, with [router.use] and no path, and
    the options of an installed wrapper are what [hook.alter('cors')],
    called without a value, returned; when [setupMiddlewares] returns,
    both happened, once each.  In the Hook Registry of the spec the
    options are [undefined] when no handler of 'cors' transforms the
    value: when there is none, or when each one declines. *)
Theorem cors_wrapper_bypass `{!Host} (config F : gmap string value)
    corsOptions req res o h :
  let t := trace_of o h (corsWrapper corsOptions req res) in
  let boot := trace_of o h (setupMiddlewares F) in
  run_handler config (CorsWrapper corsOptions) req res
  = Some (corsWrapper corsOptions req res) /\
  (url req = VStr "/" \/ truthy (headersSent res) = true -> t = [Did Next]) /\
  (url req <> VStr "/" -> truthy (headersSent res) = false ->
   t = [Did (CorsRoute corsOptions req res)]) /\
  count is_cors_alter boot <= 1 /\
  count is_cors_install boot <= 1 /\
  (forall path options,
      In (Did (RouterUse path (CorsWrapper options))) boot ->
      path = None /\ In (Asked (HookAlter "cors" []) (Normal options)) boot) /\
  (is_normal (result_of o h (setupMiddlewares F)) ->
   exists options,
     count is_cors_alter boot = 1 /\ count is_cors_install boot = 1 /\
     In (Asked (HookAlter "cors" []) (Normal options)) boot /\
     In (Did (RouterUse None (CorsWrapper options))) boot) /\
  (forall R rest h' path options,
      Forall (fun hd => hd [VUndefined] = Normal None)
        (HookRegistry.handlers R "cors") ->
      In (Did (RouterUse path (CorsWrapper options)))
        (trace_of (HookRegistry.serve R rest) h' (setupMiddlewares F)) ->
      options = VUndefined).
Proof.
  intros t boot.
  assert (forall o' h' path options,
             In (Did (RouterUse path (CorsWrapper options)))
               (trace_of o' h' (setupMiddlewares F)) ->
             path = None /\
             In (Asked (HookAlter "cors" []) (Normal options))
               (trace_of o' h' (setupMiddlewares F))) as Hopts.
  { intros o' h' path options Hin. split.
    - pose proof (setupMiddlewares_cors_path F o' h') as Hpath.
      rewrite Forall_forall in Hpath. by apply list_elem_of_In, Hpath in Hin.
    - destruct (setupMiddlewares_cors F o' h' _ Hin) as (e' & He' & ->). exact He'. }
  destruct (setupMiddlewares_alters_cors_once F o h) as [Halter Halter1].
  destruct (setupMiddlewares_installs_cors_once F o h) as [Hinst Hinst1].
  subst t. unfold corsWrapper. split_and!; [done | | | done | done | | |].
  - destruct (strict_eq_str (url req) "/") eqn:Hurl; [done|].
    intros [Heq|Hsent].
    + apply strict_eq_str_spec in Heq. congruence.
    + by rewrite Hsent.
  - intros Hne Hnot.
    destruct (strict_eq_str (url req) "/") eqn:Hurl.
    + by apply strict_eq_str_spec in Hurl.
    + by rewrite Hnot.
  - intros path options. exact (Hopts o h path options).
  - intros Hn. specialize (Halter1 Hn). specialize (Hinst1 Hn).
    destruct (count_positive is_cors_install boot) as (e & Hin & He);
      [fold boot in Hinst1; lia|].
    destruct e as [[| path hd | path hd | | | | | | | |]|]; try discriminate He;
      destruct hd as [| ? | ? | | | | | options | ? | | ?]; try discriminate He.
    + destruct (Hopts o h _ _ Hin) as [-> Hans]. by exists options.
    + pose proof (setupMiddlewares_cors_path F o h) as Hpath.
      rewrite Forall_forall in Hpath. by apply list_elem_of_In, Hpath in Hin.
  - intros R rest h' path options Hnone Hin.
    apply Hopts in Hin as [_ Hin]. apply answers_of_oracle in Hin.
    destruct Hin as [h'' Hans].
    simpl in Hans. unfold HookRegistry.alter in Hans.
    rewrite (alter_with_declined _ _ _ Hnone) in Hans. congruence.
Qed.

Lemma cors_wrapper_bypass_witness :
  trace_of example_env []
    (corsWrapper VUndefined (Request (VStr "/")) (Response (VBool false)))
  = [Did Next] /\
  trace_of example_env []
    (corsWrapper VUndefined (Request (VStr "/form")) (Response (VBool false)))
  = [Did (CorsRoute VUndefined (Request (VStr "/form")) (Response (VBool false)))] /\
  In (Asked (HookAlter "cors" []) (Normal VUndefined))
    (trace_of declining_env [] (setupMiddlewares example_formio)) /\
  In (Did (RouterUse None (CorsWrapper VUndefined)))
    (trace_of declining_env [] (setupMiddlewares example_formio)).
Proof.
  split; [|split].
  - apply (@cors_wrapper_bypass example_host example_config example_formio VUndefined
             (Request (VStr "/")) (Response (VBool false)) example_env []).
    left. reflexivity.
  - apply (@cors_wrapper_bypass example_host example_config example_formio VUndefined
             (Request (VStr "/form")) (Response (VBool false)) example_env []);
      [discriminate | reflexivity].
  - pose proof (@cors_wrapper_bypass example_host example_config example_formio VUndefined
                  (Request (VStr "/")) (Response (VBool false)) declining_env [])
      as Hcors.
    cbv zeta in Hcors. destruct Hcors as (_ & _ & _ & _ & _ & _ & Hdone & _).
    destruct Hdone as (options & _ & _ & Halter & Hinst); [vm_compute; exact I|].
    pose proof (@cors_wrapper_bypass example_host example_config example_formio VUndefined
                  (Request (VStr "/")) (Response (VBool false)) declining_env [])
      as Hcors.
    cbv zeta in Hcors. destruct Hcors as (_ & _ & _ & _ & _ & _ & _ & Hnone).
    assert (options = VUndefined) as ->.
    { apply (Hnone declining_registry example_base [] None options); [|exact Hinst].
      vm_compute. repeat constructor. }
    split; [exact Halter | exact Hinst].
Defined.

(** * Further properties of index.js *)

(** ** Rules for the further predicates *)

Section FurtherRules.
Context {A B : Type}.
Implicit Types (p : js A) (f : A -> js B).

Lemma supported_ask R c (f : value -> js B) :
  (forall r, R (Asked c r) (Asked c r)) ->
  (forall v, every (R (Asked c (Normal v))) (f v)) ->
  supported R (ask c ≫= f).
Proof.
  intros Hc Hf o h e. rewrite trace_ask_bind.
  destruct (o h c) as [v|x].
  - intros [<-|Hin]; [exists (Asked c (Normal v)); split; [by left | apply Hc]|].
    exists (Asked c (Normal v)). split; [by left|].
    specialize (Hf v o (h ++ [Asked c (Normal v)])).
    rewrite Forall_forall in Hf. by apply Hf, list_elem_of_In.
  - intros [<-|[]]. exists (Asked c (Throws x)). split; [by left | apply Hc].
Qed.

Lemma supported_try R p c :
  supported R p -> (forall e, every (fun x => R x x) (c e)) ->
  supported R (try_catch p c).
Proof.
  intros Hp Hc o h e. rewrite trace_try_catch.
  destruct (result_of o h p) as [a|x]; [apply Hp|].
  rewrite in_app_iff. intros [He|He].
  - destruct (Hp o h e He) as (e' & ? & ?). exists e'. rewrite in_app_iff. eauto.
  - exists e. rewrite in_app_iff. split; [eauto|].
    specialize (Hc x o (h ++ trace_of o h p)). rewrite Forall_forall in Hc.
    by apply Hc, list_elem_of_In.
Qed.

Lemma unasked_not_in C (t : trace) c r :
  Forall (unasked C) t -> C c = true -> ~ In (Asked c r) t.
Proof.
  rewrite Forall_forall. intros Ht Hc Hin.
  apply list_elem_of_In, Ht in Hin. simpl in Hin. congruence.
Qed.

Lemma stops_bind C P p f :
  quiet P p -> every (unasked C) p -> (forall a, stops C P (f a)) ->
  stops C P (p ≫= f).
Proof.
  intros Hq Hp Hf o h c x Hc. rewrite trace_bind.
  destruct (result_of o h p) as [a|e].
  - rewrite in_app_iff, count_app, Hq. intros [Hin|Hin].
    + by apply (unasked_not_in C _ c _ (Hp o h) Hc) in Hin.
    + by eapply Hf.
  - intros Hin. by apply (unasked_not_in C _ c _ (Hp o h) Hc) in Hin.
Qed.

Lemma stops_bind_l C P p f :
  stops C P p -> (forall a, quiet P (f a)) -> (forall a, every (unasked C) (f a)) ->
  stops C P (p ≫= f).
Proof.
  intros Hp Hq Hf o h c x Hc. rewrite trace_bind.
  destruct (result_of o h p) as [a|e]; [|by apply Hp].
  rewrite in_app_iff, count_app, Hq. intros [Hin|Hin].
  - rewrite (Hp o h c x Hc Hin). done.
  - by apply (unasked_not_in C _ c _ (Hf a o _) Hc) in Hin.
Qed.

Lemma stops_ask C P c (f : value -> js B) :
  (forall r, P (Asked c r) = false) ->
  (forall v, every (unasked C) (f v)) ->
  stops C P (ask c ≫= f).
Proof.
  intros HP Hf o h c' x Hc. rewrite trace_ask_bind.
  destruct (o h c) as [v|e]; simpl; rewrite HP.
  - intros [[=]|Hin]. by apply (unasked_not_in C _ c' _ (Hf v o _) Hc) in Hin.
  - done.
Qed.

Lemma stops_try C P p (c : value -> js A) :
  stops C P p -> (forall e, quiet P (c e)) -> (forall e, every (unasked C) (c e)) ->
  stops C P (try_catch p c).
Proof.
  intros Hp Hq Hc o h c' x HC. rewrite trace_try_catch.
  destruct (result_of o h p) as [a|e]; [by apply Hp|].
  rewrite in_app_iff, count_app, Hq. intros [Hin|Hin].
  - rewrite (Hp o h c' x HC Hin). done.
  - by apply (unasked_not_in C _ c' _ (Hc e o _) HC) in Hin.
Qed.




Lemma returns_bind_dep (Q : A -> Prop) (R : B -> Prop) p f :
  returns Q p -> (forall a, Q a -> returns R (f a)) -> returns R (p ≫= f).
Proof.
  intros Hp Hf o h b. rewrite result_bind.
  destruct (result_of o h p) as [a|x] eqn:Ha; [|done].
  apply Hf. by eapply Hp.
Qed.

End FurtherRules.


Lemma returns_try {A} (R : A -> Prop) (p : js A) c :
  returns R p -> (forall e, returns R (c e)) -> returns R (try_catch p c).
Proof.
  intros Hp Hc o h a. rewrite result_try_catch.
  destruct (result_of o h p) as [a'|x] eqn:Ha.
  - intros [= <-]. by eapply Hp.
  - apply Hc.
Qed.

Lemma returns_throw {A} (R : A -> Prop) e : returns R (throw e).
Proof. intros o h a. done. Qed.



Ltac returning :=
  cbv zeta;
  repeat first
    [ apply returns_bind; intros ?
    | apply returns_try; [|intros ?]
    | apply returns_throw
    | apply returns_ret ].

Ltac other_field :=
  let k := fresh "k" in
  let Hk := fresh "Hk" in
  intros k Hk;
  repeat (rewrite lookup_insert_ne; [|intros <-; apply Hk; simpl; tauto]);
  try done.

(** ** Numbers and property lists *)

Lemma Qlt_dec_true a b : (if Qlt_le_dec a b then true else false) = true <-> (a < b)%Q.
Proof.
  destruct (Qlt_le_dec a b) as [Hlt|Hle]; split; try done.
  intros Hlt. exfalso. eapply Qlt_not_le; eauto.
Qed.

(** [m * 0.8 < b / 1024 / 1024], in bytes. *)
Lemma heap_threshold (m b : Q) :
  Num.ltb (Num.mul (Fin m) (Fin (8 # 10)))
    (Num.div (Num.div (Fin b) (Num.of_Z 1024)) (Num.of_Z 1024)) = true <->
  (m * (8 # 10) * 1048576 < b)%Q.
Proof.
  unfold Num.div, Num.of_Z. simpl. rewrite Qlt_dec_true.
  change (inject_Z 1024) with (1024 # 1)%Q.
  assert (b / (1024 # 1) / (1024 # 1) == b * (1 # 1048576))%Q as -> by (field).
  split; intros; lra.
Qed.

Lemma is_zero_spec q : Num.is_zero q = true <-> (q == 0)%Q.
Proof. unfold Num.is_zero, Qeq. simpl. rewrite Z.eqb_eq. lia. Qed.

Lemma assoc_get_set_eq k v ps : assoc_get k (assoc_set k v ps) = Some v.
Proof.
  induction ps as [|[k' v'] ps IH]; simpl.
  - by rewrite String.eqb_refl.
  - destruct (String.eqb k' k) eqn:E; simpl; rewrite E; done.
Qed.

Lemma assoc_get_set_ne k k' v ps :
  k <> k' -> assoc_get k' (assoc_set k v ps) = assoc_get k' ps.
Proof.
  intros Hne. induction ps as [|[k1 v1] ps IH]; simpl.
  - apply String.eqb_neq in Hne. by rewrite Hne.
  - destruct (String.eqb k1 k) eqn:E; simpl.
    + apply String.eqb_eq in E. subst k1.
      apply String.eqb_neq in Hne. by rewrite Hne.
    + by rewrite IH.
Qed.

Lemma assoc_get_set_Some k k' v ps :
  is_Some (assoc_get k ps) -> is_Some (assoc_get k (assoc_set k' v ps)).
Proof.
  intros Hk. destruct (decide (k' = k)) as [->|Hne].
  - rewrite assoc_get_set_eq. eauto.
  - by rewrite assoc_get_set_ne.
Qed.

Lemma assoc_get_with_default_eq k v ps :
  assoc_get k (with_default k v ps) = Some (default v (assoc_get k ps)).
Proof.
  unfold with_default. case_bool_decide as Hk.
  - by destruct Hk as [x ->].
  - rewrite assoc_get_set_eq. destruct (assoc_get k ps) eqn:E; [|done].
    exfalso. apply Hk. eauto.
Qed.

Lemma assoc_get_with_default_ne k k' v ps :
  k <> k' -> assoc_get k' (with_default k v ps) = assoc_get k' ps.
Proof.
  intros Hne. unfold with_default. case_bool_decide; [done|].
  by apply assoc_get_set_ne.
Qed.

Lemma assoc_get_None k (ps : list (string * value)) :
  assoc_get k ps = None <-> ~ In k ps.*1.
Proof.
  induction ps as [|[k' v'] ps IH]; simpl; [tauto|].
  destruct (String.eqb k' k) eqn:E.
  - apply String.eqb_eq in E. split; [done | tauto].
  - apply String.eqb_neq in E. rewrite IH. tauto.
Qed.

(** What [{...ps, ...qs}] holds at [k]. *)
Lemma assoc_get_spread k ps qs :
  NoDup qs.*1 ->
  assoc_get k (foldl (fun acc kv => assoc_set kv.1 kv.2 acc) ps qs)
  = match assoc_get k qs with Some v => Some v | None => assoc_get k ps end.
Proof.
  revert ps. induction qs as [|[k1 v1] qs IH]; intros ps Hnd; simpl; [done|].
  apply NoDup_cons in Hnd as [Hfresh Hnd]. rewrite IH by done.
  destruct (String.eqb k1 k) eqn:E.
  - apply String.eqb_eq in E. subst k1.
    assert (assoc_get k qs = None) as ->.
    { apply assoc_get_None. by rewrite <- list_elem_of_In. }
    apply assoc_get_set_eq.
  - apply String.eqb_neq in E.
    destruct (assoc_get k qs); [done|]. by apply assoc_get_set_ne.
Qed.

Lemma assoc_get_spread_Some k ps (qs : list (string * value)) :
  is_Some (assoc_get k ps) ->
  is_Some (assoc_get k (foldl (fun acc kv => assoc_set kv.1 kv.2 acc) ps qs)).
Proof.
  revert ps. induction qs as [|[k1 v1] qs IH]; intros ps Hk; simpl; [done|].
  apply IH. by apply assoc_get_set_Some.
Qed.

Lemma filter_all {X} (f : X -> bool) (l : list X) :
  (forall x, f x = true) -> List.filter f l = l.
Proof. intros Hf. induction l as [|x l IH]; simpl; [done|]. by rewrite Hf, IH. Qed.

Lemma filter_none {X} (f : X -> bool) (l : list X) :
  Forall (fun x => f x = false) l -> List.filter f l = [].
Proof. induction 1 as [|x l Hx _ IH]; simpl; [done|]. by rewrite Hx. Qed.


(** ** The blocks of [router.init] *)

Section FurtherBlocks.
Context `{!Host}.
Variable config : gmap string value.

Lemma init_after_initialize F hooks : supported after_initialize (init config F hooks).
Proof.
  unfold init. cbv zeta.
  do 5 (apply supported_bind;
        [apply supported_every; solve [everywhere ltac:(done)] | intros ?]).
  apply supported_ask; [done|]. intros db.
  everywhere ltac:(unfold after_initialize; simpl; eauto).
Qed.

Lemma init_stops_at_initialize F hooks :
  stops is_initialize_call touches (init config F hooks).
Proof.
  unfold init. cbv zeta.
  do 5 (apply stops_bind;
        [ solve [quietly] | solve [everywhere ltac:(done)] | intros ?]).
  apply stops_ask; [done|]. intros db.
  everywhere ltac:(done).
Qed.

Lemma connectToMongoDB_stops F mongoUrl mongoConfig :
  stops is_connect_call installs_route (connectToMongoDB F mongoUrl mongoConfig).
Proof.
  unfold connectToMongoDB.
  apply stops_try; [| intros; quietly | intros; everywhere ltac:(done)].
  apply (stops_ask is_connect_call installs_route _ (fun _ => _)); [done|].
  intros v. everywhere ltac:(done).
Qed.

Lemma init_stops_at_connect F hooks :
  stops is_connect_call installs_route (init config F hooks).
Proof.
  unfold init. cbv zeta.
  do 10 (apply stops_bind;
        [ solve [quietly] | solve [everywhere ltac:(done)] | intros ?]).
  apply stops_bind_l; [| intros; quietly | intros; everywhere ltac:(done)].
  unfold setupMongoDBConnection. cbv zeta.
  do 5 (apply stops_bind;
        [ solve [quietly] | solve [everywhere ltac:(done)] | intros ?]).
  apply connectToMongoDB_stops.
Qed.

Lemma connectToMongoDB_after_connect F mongoUrl mongoConfig :
  supported after_connect (connectToMongoDB F mongoUrl mongoConfig).
Proof.
  unfold connectToMongoDB.
  apply supported_try; [|intros; everywhere ltac:(done)].
  apply (supported_ask after_connect _ (fun _ => _)); [done|].
  intros v. everywhere ltac:(simpl; eauto).
Qed.

Lemma init_after_connect F hooks : supported after_connect (init config F hooks).
Proof.
  unfold init. cbv zeta.
  do 10 (apply supported_bind;
        [apply supported_every; solve [everywhere ltac:(done)] | intros ?]).
  apply supported_bind; [|intros; apply supported_every; everywhere ltac:(done)].
  unfold setupMongoDBConnection. cbv zeta.
  do 5 (apply supported_bind;
        [apply supported_every; solve [everywhere ltac:(done)] | intros ?]).
  apply connectToMongoDB_after_connect.
Qed.




Lemma setupMiddlewares_sets_auth F :
  returns (fun F' => exists auth, F' = <["auth" := auth]> F) (setupMiddlewares F).
Proof. unfold setupMiddlewares. returning. eauto. Qed.

Lemma connectToMongoDB_result F mongoUrl mongoConfig :
  returns (fun F' => differs_at connect_fields F F' /\
                     F' !! "db" = Some (VRef "mongoose.connection"))
    (connectToMongoDB F mongoUrl mongoConfig).
Proof.
  unfold connectToMongoDB. returning.
  split; [other_field | by rewrite lookup_insert_eq].
Qed.

Lemma setupMongoDBConnection_result F :
  returns (fun F' => differs_at connect_fields F F' /\
                     F' !! "db" = Some (VRef "mongoose.connection"))
    (setupMongoDBConnection config F).
Proof.
  unfold setupMongoDBConnection. cbv zeta.
  do 5 (apply returns_bind; intros ?). apply connectToMongoDB_result.
Qed.

Lemma init_result F hooks :
  returns (fun F' => differs_at init_fields F F' /\
                     F' !! "hooks" = Some hooks /\
                     F' !! "util" = Some (VRef "util") /\
                     F' !! "db" = Some (VRef "mongoose.connection"))
    (init config F hooks).
Proof.
  unfold init. cbv zeta.
  do 8 (apply returns_bind; intros ?).
  eapply returns_bind_dep; [apply setupMiddlewares_sets_auth|].
  intros F1 [auth ->]. apply returns_bind; intros _.
  eapply returns_bind_dep; [apply setupMongoDBConnection_result|].
  intros F2 [Hsame Hdb]. apply returns_ret.
  split_and!; [| | |done].
  - intros k Hk. rewrite Hsame by (intros Hin; apply Hk; simpl in *; tauto).
    revert k Hk. other_field.
  - rewrite Hsame by (simpl; intros Hin; decompose [or] Hin; done).
    by simplify_map_eq.
  - rewrite Hsame by (simpl; intros Hin; decompose [or] Hin; done).
    by simplify_map_eq.
Qed.

Lemma unconditional_middlewares F r :
  3 <= r <= 7 -> single (has_rank r) (setupMiddlewares F).
Proof.
  intros Hr. assert (r = 3 \/ r = 4 \/ r = 5 \/ r = 6 \/ r = 7) as Hcases by lia.
  unfold setupMiddlewares.
  destruct Hcases as [->|[->|[->|[->| ->]]]]; singly.
Qed.

(** [connectToMongoDB] is its [try] block with its [catch] block. *)
Lemma connectToMongoDB_blocks F mongoUrl mongoConfig :
  connectToMongoDB F mongoUrl mongoConfig
  = try_catch (connectToMongoDB_try F mongoUrl mongoConfig) connectToMongoDB_catch.
Proof. reflexivity. Qed.

(** With an object for [config.mongoConfig], [setupMongoDBConnection] is
    [connectToMongoDB] on the assembled url and options. *)
Lemma setupMongoDBConnection_object F ps :
  parsed_mongoConfig config = Normal (VObject ps) ->
  setupMongoDBConnection config F
  = (act ObjectIdSetTransform;;
     connectToMongoDB F (mongo_url config) (mongo_options config ps)).
Proof.
  unfold parsed_mongoConfig, setupMongoDBConnection, mongo_options, mongo_url,
    ensure_default, with_default.
  intros Hparsed.
  destruct (truthy (field config "mongoConfig")); [rewrite Hparsed|injection Hparsed as <-];
    simpl;
    repeat (case_bool_decide; simpl);
    destruct (truthy (js_or _ _)); simpl;
    destruct (truthy (field config "mongoSSL")); simpl;
    destruct (field config "mongo"); reflexivity.
Qed.

Lemma connectToMongoDB_connects F mongoUrl mongoConfig :
  every (connects_with (fun u c => u = mongoUrl /\ c = mongoConfig))
    (connectToMongoDB F mongoUrl mongoConfig).
Proof. unfold connectToMongoDB. everywhere ltac:(done). Qed.

Lemma setupMongoDBConnection_connects F ps o h u c r :
  parsed_mongoConfig config = Normal (VObject ps) ->
  In (Asked (MongooseConnect u c) r) (trace_of o h (setupMongoDBConnection config F)) ->
  u = mongo_url config /\ c = mongo_options config ps.
Proof.
  intros Hparsed. rewrite (setupMongoDBConnection_object F ps Hparsed).
  rewrite trace_bind. unfold result_of at 1. simpl.
  intros [Hin|Hin]; [done|].
  pose proof (connectToMongoDB_connects F (mongo_url config) (mongo_options config ps)
                o (h ++ trace_of o h (act ObjectIdSetTransform))) as Hall.
  rewrite Forall_forall in Hall. by apply list_elem_of_In, Hall in Hin.
Qed.

End FurtherBlocks.

(** ** The filter of the components route *)

Section FilterRules.
Context `{!Host} `{!Library}.

Lemma filter_step_shortcut component prev entry :
  boolean_match component entry = true -> filter_step component prev entry = true.
Proof.
  destruct entry as [prop value]. unfold boolean_match, filter_step. simpl.
  destruct (truthy value); simpl; [|done].
  intros Hmatch. destruct (prev && loose_eq _ _); simpl; done.
Qed.

Lemma filter_step_plain component prev entry :
  boolean_match component entry = false ->
  filter_step component prev entry = prev && entry_holds component entry.
Proof.
  destruct entry as [prop value]. unfold boolean_match, filter_step, entry_holds. simpl.
  destruct (truthy value); simpl; [|done].
  intros [-> ->]%orb_false_iff. by rewrite !orb_false_r.
Qed.

Lemma foldl_filter_plain component prev entries :
  Forall (fun e => boolean_match component e = false) entries ->
  foldl (filter_step component) prev entries
  = prev && forallb (entry_holds component) entries.
Proof.
  intros Hall. revert prev.
  induction Hall as [|e es He _ IH]; intros prev; simpl.
  - by rewrite andb_true_r.
  - rewrite IH, filter_step_plain by done. by rewrite andb_assoc.
Qed.

End FilterRules.

(** ** The properties *)

Section FurtherProperties.
Context `{!Host}.
Variable config : gmap string value.

(** X1. The memory-leak-prevention middleware reads the heap size once when
    [config.maxOldSpace] is truthy and never otherwise, and it calls [gc()]
    at most as often as it read the heap size: without [maxOldSpace] there
    is no garbage collection. *)
Theorem gc_needs_maxOldSpace o h :
  let t := trace_of o h (memoryLeakPrevention config) in
  count is_heap_read t = (if truthy (field config "maxOldSpace") then 1 else 0) /\
  count is_gc t <= count is_heap_read t.
Proof.
  unfold memoryLeakPrevention.
  destruct (truthy (field config "maxOldSpace")); run_program; [|done].
  destruct (o _ MemoryUsage) as [usage|e]; run_program; [|simpl; lia].
  destruct (get_prop usage "heapTotal") as [heapTotal|e]; run_program; [|simpl; lia].
  destruct (Num.ltb _ _); run_program; [|simpl; lia].
  destruct (o _ Gc) as [?|e]; run_program; simpl; lia.
Qed.

(** X2. With a whole number [k] of megabytes for [config.maxOldSpace], up
    to 2^30, and a whole number [n] of bytes for [heapTotal], below 2^53,
    the middleware calls [gc()] at most once, and exactly once iff [k] is
    not zero and the heap is above 80% of [k] megabytes:
    [4 * k * 1048576 < 5 * n].  The two bounds are where the doubles of
    the code decide the comparison as the exact numbers do. *)
Theorem gc_above_threshold o h k usage n :
  (0 <= k <= 2 ^ 30)%Z -> (0 <= n < 2 ^ 53)%Z ->
  field config "maxOldSpace" = VNum (Num.of_Z k) ->
  (forall h', o h' MemoryUsage = Normal usage) ->
  get_prop usage "heapTotal" = Normal (VNum (Num.of_Z n)) ->
  let t := trace_of o h (memoryLeakPrevention config) in
  count is_gc t <= 1 /\
  (count is_gc t = 1 <-> k <> 0%Z /\ (4 * k * 1048576 < 5 * n)%Z).
Proof.
  intros _ _ Hm Ho Hb. unfold memoryLeakPrevention, Num.of_Z in *.
  rewrite Hm. simpl truthy.
  assert (Num.is_zero (inject_Z k) = true <-> k = 0%Z) as Hzero.
  { unfold Num.is_zero. simpl. apply Z.eqb_eq. }
  assert ((inject_Z k * (8 # 10) * 1048576 < inject_Z n)%Q <->
          (4 * k * 1048576 < 5 * n)%Z) as Hexact.
  { unfold Qlt. simpl. lia. }
  destruct (Num.is_zero (inject_Z k)) eqn:Hz; simpl negb; run_program.
  - simpl. split; [lia|]. split; [lia | tauto].
  - assert (k <> 0%Z) as Hnz by (intros Hk; apply Hzero in Hk; congruence).
    rewrite Ho. run_program. rewrite Hb. run_program. simpl to_number.
    destruct (Num.ltb _ _) eqn:Hlt; run_program.
    + apply heap_threshold, Hexact in Hlt.
      destruct (o _ Gc) as [?|e]; run_program; simpl; (split; [lia | tauto]).
    + assert (~ (4 * k * 1048576 < 5 * n)%Z) as Hnot.
      { intros Hlt'. apply Hexact, heap_threshold in Hlt'.
        unfold Num.of_Z in Hlt'. congruence. }
      simpl. split; [lia|]. split; [lia | tauto].
Qed.

(** X3. While [router.formio.hook] is undefined or null, as it is until
    [router.init] assigns it, [router.formio.log] throws before it has
    called anything, and so does [router.formio.audit] when [config.audit]
    is truthy; with a falsy [config.audit], [audit] returns and does
    nothing. *)
Theorem logging_needs_the_hook (F : gmap string value) event req info o h :
  is_nullish (field F "hook") = true ->
  (exists e, run o h (log F event req info) = (Throws e, [])) /\
  (truthy (field config "audit") = true ->
   exists e, run o h (audit config F event req info) = (Throws e, [])) /\
  (truthy (field config "audit") = false ->
   run o h (audit config F event req info) = (Normal tt, [])).
Proof.
  intros Hnone. unfold log, audit, hook_alter.
  split_and!.
  - destruct (field F "hook"); try done; run_program; eauto.
  - intros ->. destruct (field F "hook"); try done; run_program; eauto.
  - intros ->. done.
Qed.

(** X4. When the [try] block of [connectToMongoDB] throws [err],
    [connectToMongoDB] does not throw [err]: it logs [err.message] with
    [util.log], after what the block did, and throws [err.message]; when
    reading [message] off [err] throws, as it does for [undefined] and
    [null], that error is thrown and nothing is logged. *)
Theorem connectToMongoDB_throws_message (F : gmap string value) mongoUrl mongoConfig
    o h err :
  result_of o h (connectToMongoDB_try F mongoUrl mongoConfig) = Throws err ->
  let t := trace_of o h (connectToMongoDB_try F mongoUrl mongoConfig) in
  (forall message,
      get_prop err "message" = Normal message ->
      run o h (connectToMongoDB F mongoUrl mongoConfig)
      = (Throws message, t ++ [Did (UtilLog [message])])) /\
  (forall e,
      get_prop err "message" = Throws e ->
      run o h (connectToMongoDB F mongoUrl mongoConfig) = (Throws e, t)).
Proof.
  intros Herr t. rewrite connectToMongoDB_blocks, run_try_catch. subst t.
  unfold result_of, trace_of in *.
  destruct (run o h (connectToMongoDB_try F mongoUrl mongoConfig)) as [r t] eqn:Hrun.
  simpl in Herr. subst r. simpl. unfold connectToMongoDB_catch.
  split.
  - intros message ->. run_program. done.
  - intros e ->. run_program. by rewrite app_nil_r.
Qed.

(** X5. In every run of [router.init], whatever is installed on the router,
    and the construction and the registration of the evaluator, comes with
    a resolved [update.initialize()]; when [update.initialize()] rejects,
    nothing is installed, constructed or registered. *)
Theorem init_needs_initialize (F : gmap string value) hooks o h :
  let t := trace_of o h (init config F hooks) in
  (forall e, In e t -> touches e = true ->
             exists db, In (Asked UpdateInitialize (Normal db)) t) /\
  (forall x, In (Asked UpdateInitialize (Throws x)) t -> count touches t = 0).
Proof.
  intros t. split.
  - intros e Hin Htouch.
    destruct (init_after_initialize config F hooks o h e Hin) as (e' & Hin' & He').
    unfold after_initialize in He'. fold (touches e) in He'. rewrite Htouch in He'.
    destruct He' as [db ->]. eauto.
  - intros x Hin.
    exact (init_stops_at_initialize config F hooks o h UpdateInitialize x eq_refl Hin).
Qed.

(** X6. In every run of [router.init], the components route and the two
    swagger routes are installed only with a resolved [mongoose.connect];
    when [mongoose.connect] rejects, none of them is installed. *)
Theorem routes_need_connection (F : gmap string value) hooks o h :
  let t := trace_of o h (init config F hooks) in
  (forall e, In e t -> installs_route e = true ->
             exists mongoUrl mongoConfig v,
               In (Asked (MongooseConnect mongoUrl mongoConfig) (Normal v)) t) /\
  (forall mongoUrl mongoConfig x,
      In (Asked (MongooseConnect mongoUrl mongoConfig) (Throws x)) t ->
      count installs_route t = 0).
Proof.
  intros t. split.
  - intros e Hin Hroute.
    destruct (init_after_connect config F hooks o h e Hin) as (e' & Hin' & He').
    destruct e as [[]|]; simpl in Hroute, He'; try done;
      rewrite Hroute in He'; destruct He' as (u & c & v & ->); eauto.
  - intros u c x Hin.
    exact (init_stops_at_connect config F hooks o h (MongooseConnect u c) x eq_refl Hin).
Qed.

(** X7. The schema sanity check, the two body parsers, the handler of
    malformed JSON and the CORS wrapper (ranks 3 to 7) are behind no
    [hook.invoke]: [setupMiddlewares] installs each at most once, and
    exactly once when it returns, whatever the hooks answer. *)
Theorem unconditional_middlewares_installed (F : gmap string value) o h r :
  3 <= r <= 7 ->
  let t := trace_of o h (setupMiddlewares F) in
  count (has_rank r) t <= 1 /\
  (is_normal (result_of o h (setupMiddlewares F)) -> count (has_rank r) t = 1).
Proof. intros Hr. exact (unconditional_middlewares F r Hr o h). Qed.


(** X9. When [router.init] returns, the [router.formio] it returns holds
    the hooks it was called with, [util], and [mongoose.connection] as
    [db] (not the handle that [update.initialize()] resolved with), and
    agrees with the [router.formio] before the call on every field but the
    seventeen that [init] assigns. *)
Theorem init_returns_formio (F : gmap string value) hooks o h F' :
  result_of o h (init config F hooks) = Normal F' ->
  F' !! "hooks" = Some hooks /\
  F' !! "util" = Some (VRef "util") /\
  F' !! "db" = Some (VRef "mongoose.connection") /\
  (forall k, ~ In k init_fields -> F' !! k = F !! k).
Proof.
  intros Hres. destruct (init_result config F hooks o h F' Hres) as (? & ? & ? & ?).
  done.
Qed.

(** X10. When [config.mongoConfig] is absent or parses to an object, the
    options of every [mongoose.connect] of [setupMongoDBConnection] have
    [connectTimeoutMS] and [socketTimeoutMS] as own properties, whatever
    [mongoSA], [mongoCA] and [mongoSSL] are. *)
Theorem mongo_timeouts_always_set (F : gmap string value) ps o h mongoUrl mongoConfig r :
  parsed_mongoConfig config = Normal (VObject ps) ->
  In (Asked (MongooseConnect mongoUrl mongoConfig) r)
    (trace_of o h (setupMongoDBConnection config F)) ->
  has_own mongoConfig "connectTimeoutMS" = Normal true /\
  has_own mongoConfig "socketTimeoutMS" = Normal true.
Proof.
  intros Hparsed Hin.
  destruct (setupMongoDBConnection_connects config F ps o h _ _ _ Hparsed Hin)
    as [_ ->].
  unfold mongo_options.
  set (ps1 := with_default "connectTimeoutMS" _ ps).
  set (ps2 := with_default "socketTimeoutMS" _ ps1).
  assert (is_Some (assoc_get "connectTimeoutMS" ps2)) as Hc.
  { unfold ps2. rewrite assoc_get_with_default_ne by done.
    unfold ps1. rewrite assoc_get_with_default_eq. eauto. }
  assert (is_Some (assoc_get "socketTimeoutMS" ps2)) as Hs.
  { unfold ps2. rewrite assoc_get_with_default_eq. eauto. }
  set (ps3 := if truthy _ then _ else ps2).
  assert (is_Some (assoc_get "connectTimeoutMS" ps3) /\
          is_Some (assoc_get "socketTimeoutMS" ps3)) as [Hc3 Hs3].
  { unfold ps3. destruct (truthy _); [|done].
    split; by do 2 apply assoc_get_set_Some. }
  destruct (truthy (field config "mongoSSL")); simpl.
  - split; f_equal; apply bool_decide_eq_true; by apply assoc_get_spread_Some.
  - split; f_equal; by apply bool_decide_eq_true.
Qed.

(** X11. Without [config.mongoSSL], the two timeouts that
    [mongoose.connect] is called with are those of [config.mongoConfig]
    where it has them (also when the value is falsy, such as 0) and 300000
    where it has not. *)
Theorem mongo_timeouts_given_or_default (F : gmap string value) ps o h
    mongoUrl mongoConfig r :
  parsed_mongoConfig config = Normal (VObject ps) ->
  truthy (field config "mongoSSL") = false ->
  In (Asked (MongooseConnect mongoUrl mongoConfig) r)
    (trace_of o h (setupMongoDBConnection config F)) ->
  get_prop mongoConfig "connectTimeoutMS"
  = Normal (default (VNum (Num.of_Z 300000)) (assoc_get "connectTimeoutMS" ps)) /\
  get_prop mongoConfig "socketTimeoutMS"
  = Normal (default (VNum (Num.of_Z 300000)) (assoc_get "socketTimeoutMS" ps)).
Proof.
  intros Hparsed Hssl Hin.
  destruct (setupMongoDBConnection_connects config F ps o h _ _ _ Hparsed Hin)
    as [_ ->].
  unfold mongo_options. rewrite Hssl.
  destruct (truthy (js_or _ _)); simpl;
    rewrite ?assoc_get_set_ne by done;
    rewrite assoc_get_with_default_eq;
    rewrite (assoc_get_with_default_ne "socketTimeoutMS" "connectTimeoutMS") by done;
    rewrite assoc_get_with_default_eq;
    rewrite (assoc_get_with_default_ne "connectTimeoutMS" "socketTimeoutMS") by done;
    done.
Qed.

(** X12. Without [config.mongoSSL]: when [config.mongoSA || config.mongoCA]
    is truthy, [mongoose.connect] is called with [tls: true] and that value
    as [tlsCAFile], [mongoSA] before [mongoCA], overriding what
    [config.mongoConfig] says; when it is falsy, [tls] and [tlsCAFile] are
    as in [config.mongoConfig]. *)
Theorem mongo_tls_from_certificates (F : gmap string value) ps o h
    mongoUrl mongoConfig r :
  parsed_mongoConfig config = Normal (VObject ps) ->
  truthy (field config "mongoSSL") = false ->
  In (Asked (MongooseConnect mongoUrl mongoConfig) r)
    (trace_of o h (setupMongoDBConnection config F)) ->
  let ca := js_or (field config "mongoSA") (field config "mongoCA") in
  (truthy ca = true ->
   get_prop mongoConfig "tls" = Normal (VBool true) /\
   get_prop mongoConfig "tlsCAFile" = Normal ca) /\
  (truthy ca = false ->
   get_prop mongoConfig "tls" = Normal (default VUndefined (assoc_get "tls" ps)) /\
   get_prop mongoConfig "tlsCAFile"
   = Normal (default VUndefined (assoc_get "tlsCAFile" ps))).
Proof.
  intros Hparsed Hssl Hin ca.
  destruct (setupMongoDBConnection_connects config F ps o h _ _ _ Hparsed Hin)
    as [_ ->].
  unfold mongo_options. rewrite Hssl. fold ca.
  split; intros ->; simpl.
  - by rewrite assoc_get_set_ne, !assoc_get_set_eq.
  - by rewrite !assoc_get_with_default_ne.
Qed.

(** X13. An object [config.mongoSSL] has the last word: every property of
    it is passed to [mongoose.connect] with its value, also [tls],
    [tlsCAFile] and the two timeouts. *)
Theorem mongoSSL_overrides (F : gmap string value) ps qs o h mongoUrl mongoConfig r k v :
  parsed_mongoConfig config = Normal (VObject ps) ->
  field config "mongoSSL" = VObject qs -> NoDup qs.*1 ->
  In (Asked (MongooseConnect mongoUrl mongoConfig) r)
    (trace_of o h (setupMongoDBConnection config F)) ->
  assoc_get k qs = Some v ->
  get_prop mongoConfig k = Normal v.
Proof.
  intros Hparsed Hssl Hnd Hin Hk.
  destruct (setupMongoDBConnection_connects config F ps o h _ _ _ Hparsed Hin)
    as [_ ->].
  unfold mongo_options. rewrite Hssl. simpl.
  by rewrite assoc_get_spread, Hk.
Qed.

(** X14. When [JSON.parse(config.mongoConfig)] throws,
    [setupMongoDBConnection] throws that error, outside the [try] of
    [connectToMongoDB]: the error itself and not its message, nothing is
    logged and [mongoose.connect] is not called.  When it parses to a
    primitive value, [setupMongoDBConnection] throws as well, before any
    call. *)
Theorem invalid_mongoConfig_stops_before_connect (F : gmap string value) o h :
  (forall e, parsed_mongoConfig config = Throws e ->
             run o h (setupMongoDBConnection config F) = (Throws e, [])) /\
  (forall v, parsed_mongoConfig config = Normal v -> is_object v = false ->
             exists e, run o h (setupMongoDBConnection config F) = (Throws e, [])).
Proof.
  unfold parsed_mongoConfig, setupMongoDBConnection, ensure_default. split.
  - intros e. destruct (truthy (field config "mongoConfig")); [|done].
    intros ->. done.
  - intros v Hv Hprim.
    destruct (truthy (field config "mongoConfig")).
    + rewrite Hv. destruct v; try done; simpl; eauto.
    + injection Hv as <-. done.
Qed.

End FurtherProperties.

Section RouteProperties.
Context `{!Host} `{!Library}.

(** X15. A query of [limit] and [skip] only, or an empty one, filters
    nothing: the components route answers with all the flattened
    components of the form. *)
Theorem pagination_only_lists_all form components flat ps :
  truthy form = true ->
  get_prop form "components" = Normal components ->
  flattenComponents components = Normal flat ->
  Forall (fun kv => kv.1 = "limit" \/ kv.1 = "skip") ps ->
  formComponents (Normal form) (VObject ps) = Json (VArray flat).
Proof.
  intros Hform Hcomps Hflat Hps. unfold formComponents. rewrite Hform.
  assert (query_filter (VObject ps) = Normal None \/
          query_filter (VObject ps) = Normal (Some [])) as Hfilter.
  { unfold query_filter. cbn [is_nullish own_props].
    destruct ps as [|kv ps']; [by left | right].
    rewrite filter_none; [done|].
    eapply Forall_impl; [exact Hps|]. intros [k v] [Hk|Hk]; simpl in Hk; by subst k. }
  cbn [negb]. destruct Hfilter as [-> | ->]; rewrite Hcomps, Hflat;
    by rewrite filter_all.
Qed.

(** X16. When no entry of the filter matches the component as the boolean
    that its text names, the component passes iff every entry holds of it:
    the property is there, for an empty value, and loosely equals the
    value otherwise. *)
Theorem filters_are_conjunctive entries component :
  Forall (fun e => boolean_match component e = false) entries ->
  component_matches (Some entries) component
  = forallb (entry_holds component) entries.
Proof. intros Hplain. simpl. by rewrite foldl_filter_plain. Qed.

(** X17. An entry ['true'] or ['false'] whose property is that boolean on
    the component makes the reduction true whatever the entries before it
    gave ([&&] binds tighter than [||]): the component passes iff the
    entries after it let it pass. *)
Theorem boolean_match_resets_filter before entry after component :
  boolean_match component entry = true ->
  component_matches (Some (before ++ entry :: after)) component
  = component_matches (Some after) component.
Proof.
  intros Hmatch. simpl. rewrite foldl_app. simpl.
  by rewrite filter_step_shortcut.
Qed.


(** X19. For a SyntaxError of the body parser, the error handler sends 400
    with the message of the error and then calls [next()]; the CORS
    wrapper that follows it finds the headers sent and calls [next()]
    without running the cors middleware. *)
Theorem malformed_json_then_cors err message corsOptions req o h :
  instanceof_SyntaxError err = true ->
  get_prop err "message" = Normal message ->
  exists replies,
    malformedJson err = Normal replies /\
    replies = [StatusSend 400 message; NextRoute] /\
    trace_of o h (corsWrapper corsOptions req
                    (Response (VBool (headers_sent replies)))) = [Did Next].
Proof.
  intros Herr Hmsg. unfold malformedJson. rewrite Herr, Hmsg.
  eexists. split_and!; [done..|].
  unfold corsWrapper. simpl. by destruct (strict_eq_str (url req) "/").
Qed.

(** X20. The error handler after the body parsers ends with [next()]
    without the error, for every error: no error is passed on, and the
    response is sent exactly for a SyntaxError. *)
Theorem errors_are_dropped err replies :
  malformedJson err = Normal replies ->
  last replies = Some NextRoute /\
  Forall (fun r => forall e, r <> NextError e) replies /\
  (headers_sent replies = instanceof_SyntaxError err).
Proof.
  unfold malformedJson. destruct (instanceof_SyntaxError err).
  - destruct (get_prop err "message"); [|done]. intros [= <-].
    split_and!; [done | repeat constructor; done | done].
  - intros [= <-]. split_and!; [done | repeat constructor; done | done].
Qed.

End RouteProperties.

(** ** Instances *)

Lemma gc_above_threshold_witness :
  count is_gc (trace_of example_env [] (@memoryLeakPrevention example_host gc_config)) = 1.
Proof.
  destruct (@gc_above_threshold example_host gc_config example_env [] 10
              (VObject [("heapTotal", VNum (Num.of_Z 67108864))]) 67108864)
    as [_ Hgc]; [lia | lia | vm_compute; reflexivity | reflexivity | reflexivity |].
  apply Hgc. lia.
Defined.

Lemma logging_needs_the_hook_witness :
  (exists e, run example_env [] (log ∅ (VStr "request") (VRef "req") []) = (Throws e, [])) /\
  run example_env [] (@audit example_host ∅ ∅ (VStr "login") (VRef "req") [])
  = (Normal tt, []).
Proof.
  destruct (@logging_needs_the_hook example_host ∅ ∅ (VStr "request") (VRef "req") []
              example_env []) as (Hlog & _ & _); [reflexivity|].
  destruct (@logging_needs_the_hook example_host ∅ ∅ (VStr "login") (VRef "req") []
              example_env []) as (_ & _ & Haudit); [reflexivity|].
  split; [exact Hlog | apply Haudit; reflexivity].
Defined.

Lemma connectToMongoDB_throws_message_witness :
  run refusing_env []
    (@connectToMongoDB example_host example_formio (VStr "mongodb://db") (VObject []))
  = (Throws (VStr "ECONNREFUSED"),
     [Asked (MongooseConnect (VStr "mongodb://db") (VObject []))
        (Throws (VObject [("message", VStr "ECONNREFUSED")]));
      Did (UtilLog [VStr "ECONNREFUSED"])]).
Proof.
  destruct (@connectToMongoDB_throws_message example_host example_formio
              (VStr "mongodb://db") (VObject []) refusing_env []
              (VObject [("message", VStr "ECONNREFUSED")]))
    as [Hmessage _]; [vm_compute; reflexivity|].
  rewrite (Hmessage (VStr "ECONNREFUSED")); [|reflexivity].
  vm_compute. reflexivity.
Defined.

Lemma init_needs_initialize_witness :
  count touches
    (trace_of outdated_env [] (@init example_host example_config example_formio VUndefined))
  = 0.
Proof.
  destruct (@init_needs_initialize example_host example_config example_formio VUndefined
              outdated_env []) as [_ Hstop].
  apply (Hstop (VStr "schema is out of date")).
  apply (nth_error_In _ 4). vm_compute. reflexivity.
Defined.

Lemma routes_need_connection_witness :
  count installs_route
    (trace_of refusing_env [] (@init example_host example_config example_formio VUndefined))
  = 0.
Proof.
  destruct (@routes_need_connection example_host example_config example_formio VUndefined
              refusing_env []) as [_ Hstop].
  eapply (Hstop _ _ (VObject [("message", VStr "ECONNREFUSED")])).
  apply (nth_error_In _ 36). vm_compute. reflexivity.
Defined.
Lemma unconditional_middlewares_installed_witness :
  count (has_rank 7) (trace_of overriding_env [] (setupMiddlewares example_formio)) = 1.
Proof.
  destruct (unconditional_middlewares_installed example_formio overriding_env [] 7)
    as [_ Hcors]; [lia|].
  apply Hcors. vm_compute. exact I.
Defined.


Lemma init_returns_formio_witness :
  exists F',
    result_of example_env [] (@init example_host example_config example_formio VUndefined)
    = Normal F' /\
    F' !! "db" = Some (VRef "mongoose.connection") /\
    F' !! "middleware" = example_formio !! "middleware".
Proof.
  assert (exists F',
             result_of example_env []
               (@init example_host example_config example_formio VUndefined)
             = Normal F') as [F' Hres]
    by (eexists; vm_compute; reflexivity).
  exists F'. split; [exact Hres|].
  destruct (@init_returns_formio example_host example_config example_formio VUndefined
              example_env [] F' Hres) as (_ & _ & Hdb & Hsame).
  split; [exact Hdb|]. apply Hsame.
  clear. vm_compute. intros Hin. decompose [or] Hin; (discriminate || assumption).
Defined.
Lemma mongo_timeouts_always_set_witness :
  exists mongoConfig r,
    In (Asked (MongooseConnect VUndefined mongoConfig) r)
      (trace_of example_env []
         (@setupMongoDBConnection parsing_host timeout_config example_formio)) /\
    has_own mongoConfig "connectTimeoutMS" = Normal true /\
    has_own mongoConfig "socketTimeoutMS" = Normal true.
Proof.
  eexists _, _.
  match goal with
  | |- ?A /\ _ => assert A as Hin by (apply (nth_error_In _ 1); vm_compute; reflexivity)
  end.
  split; [exact Hin|].
  eapply (@mongo_timeouts_always_set parsing_host timeout_config example_formio
           [("connectTimeoutMS", VNum (Num.of_Z 1000))] example_env [] _ _ _);
    [vm_compute; reflexivity | exact Hin].
Defined.

Lemma mongo_timeouts_given_or_default_witness :
  exists mongoConfig r,
    In (Asked (MongooseConnect VUndefined mongoConfig) r)
      (trace_of example_env []
         (@setupMongoDBConnection parsing_host timeout_config example_formio)) /\
    get_prop mongoConfig "connectTimeoutMS" = Normal (VNum (Num.of_Z 1000)) /\
    get_prop mongoConfig "socketTimeoutMS" = Normal (VNum (Num.of_Z 300000)).
Proof.
  eexists _, _.
  match goal with
  | |- ?A /\ _ => assert A as Hin by (apply (nth_error_In _ 1); vm_compute; reflexivity)
  end.
  split; [exact Hin|].
  eapply (@mongo_timeouts_given_or_default parsing_host timeout_config example_formio
           [("connectTimeoutMS", VNum (Num.of_Z 1000))] example_env [] _ _ _);
    [vm_compute; reflexivity | vm_compute; reflexivity | exact Hin].
Defined.

Lemma mongo_tls_from_certificates_witness :
  exists mongoConfig r,
    In (Asked (MongooseConnect VUndefined mongoConfig) r)
      (trace_of example_env []
         (@setupMongoDBConnection example_host tls_config example_formio)) /\
    get_prop mongoConfig "tls" = Normal (VBool true) /\
    get_prop mongoConfig "tlsCAFile" = Normal (VStr "/etc/ssl/ca.pem").
Proof.
  eexists _, _.
  match goal with
  | |- ?A /\ _ => assert A as Hin by (apply (nth_error_In _ 1); vm_compute; reflexivity)
  end.
  split; [exact Hin|].
  assert (@parsed_mongoConfig example_host tls_config = Normal (VObject [])) as Hparsed
    by (vm_compute; reflexivity).
  assert (truthy (field tls_config "mongoSSL") = false) as Hssl
    by (vm_compute; reflexivity).
  destruct (@mongo_tls_from_certificates example_host tls_config example_formio
              [] example_env [] _ _ _ Hparsed Hssl Hin) as [Htls _].
  apply Htls. vm_compute. reflexivity.
Defined.

Lemma mongoSSL_overrides_witness :
  exists mongoConfig r,
    In (Asked (MongooseConnect VUndefined mongoConfig) r)
      (trace_of example_env []
         (@setupMongoDBConnection example_host ssl_config example_formio)) /\
    get_prop mongoConfig "tls" = Normal (VBool false).
Proof.
  eexists _, _.
  match goal with
  | |- ?A /\ _ => assert A as Hin by (apply (nth_error_In _ 1); vm_compute; reflexivity)
  end.
  split; [exact Hin|].
  eapply (@mongoSSL_overrides example_host ssl_config example_formio
           [] [("tls", VBool false)] example_env [] _ _ _ "tls" (VBool false));
    [vm_compute; reflexivity | vm_compute; reflexivity | apply NoDup_singleton
    | exact Hin | reflexivity].
Defined.

Lemma invalid_mongoConfig_stops_before_connect_witness :
  run example_env [] (@setupMongoDBConnection parsing_host broken_config example_formio)
  = (Throws syntax_error, []).
Proof.
  destruct (@invalid_mongoConfig_stops_before_connect parsing_host broken_config
              example_formio example_env []) as [Hthrows _].
  apply Hthrows. vm_compute. reflexivity.
Defined.

Lemma pagination_only_lists_all_witness :
  @formComponents example_host example_library (Normal example_form)
    (VObject [("limit", VStr "10"); ("skip", VStr "20")])
  = Json (VArray example_components).
Proof.
  apply (@pagination_only_lists_all example_host example_library example_form
           (VArray example_components) example_components);
    [reflexivity | reflexivity | reflexivity |].
  constructor; [left; reflexivity|]. constructor; [right; reflexivity|]. constructor.
Defined.

Lemma filters_are_conjunctive_witness :
  @component_matches example_host example_library
    (Some [("type", VStr "number"); ("key", VStr "age")])
    (VObject [("key", VStr "age"); ("type", VStr "number"); ("hidden", VBool false)])
  = true.
Proof.
  rewrite (@filters_are_conjunctive example_host example_library).
  - vm_compute. reflexivity.
  - repeat constructor; vm_compute; reflexivity.
Defined.

Lemma boolean_match_resets_filter_witness :
  @component_matches example_host example_library
    (Some ([("type", VStr "number")] ++ [("hidden", VStr "true")]))
    (VObject [("key", VStr "name"); ("type", VStr "textfield"); ("hidden", VBool true)])
  = true.
Proof.
  rewrite (@boolean_match_resets_filter example_host example_library
             [("type", VStr "number")] ("hidden", VStr "true") []).
  - reflexivity.
  - vm_compute. reflexivity.
Defined.

Lemma malformed_json_then_cors_witness :
  exists replies,
    @malformedJson example_library syntax_error = Normal replies /\
    replies = [StatusSend 400 (VStr "Unexpected token"); NextRoute] /\
    trace_of example_env []
      (corsWrapper VUndefined (Request (VStr "/form")) (Response (VBool (headers_sent replies))))
    = [Did Next].
Proof.
  apply (@malformed_json_then_cors example_library syntax_error
           (VStr "Unexpected token") VUndefined (Request (VStr "/form")) example_env []);
    reflexivity.
Defined.

Lemma errors_are_dropped_witness :
  last [StatusSend 400 (VStr "Unexpected token"); NextRoute] = Some NextRoute /\
  Forall (fun r => forall e, r <> NextError e)
    [StatusSend 400 (VStr "Unexpected token"); NextRoute] /\
  headers_sent [StatusSend 400 (VStr "Unexpected token"); NextRoute]
  = @instanceof_SyntaxError example_library syntax_error.
Proof.
  apply (@errors_are_dropped example_library syntax_error). reflexivity.
Defined.
